(** * CFB-Data: the play-by-play scraper and the batch cleanup, verified

    A shallow embedding of [scripts/01-cfdscraper.py] and
    [scripts/02-clean.py].  Python objects are values of [pyval]; a call
    that may raise returns an [outcome]; the functions of the scripts keep
    their names.

    Scope of the model.
    - Text is ASCII: [str.upper] and [int] are modelled on the ASCII range
      (bytes above 127 are left alone by [upper] and are neither digits
      nor blanks for [int]); a statement that depends on either for a
      text that may hold other bytes says [is_ascii].
    - Numbers are integers ([PInt]) and the float NaN ([PNaN], the
      [np.nan] of the scripts); other floats are outside the model.
    - A dict is an association list in which the first binding of a key is
      the one that counts.
    - A pandas frame is a list of named columns of equal length;
      [DataFrame.apply(f, axis=1)] calls [f] on the rows in order.  A
      column holds the values it was given: the change of representation
      pandas applies to a column of numbers that has [None] in it (the
      numbers stored as floats, [None] as NaN) is not modelled, so a
      document with such a column is outside the model. *)

From Stdlib Require Import ZArith List String Ascii Bool Lia DecimalString.
Import ListNotations.

Set Warnings "-register-all".

Open Scope string_scope.
Open Scope Z_scope.

(* ================================================================== *)
(** * Part I. Definitions *)
(* ================================================================== *)

(** ** Exceptions and outcomes *)

(** The exception classes the two scripts meet.  All of them derive from
    [Exception]. *)
Inductive exc : Type :=
| AttributeError
| TypeError
| KeyError
| IndexError
| ValueError
| UnboundLocalError
| FileNotFoundError.

Inductive outcome (A : Type) : Type :=
| Ok (a : A)
| Raise (e : exc).

Arguments Ok {A} a.
Arguments Raise {A} e.

Definition bind {A B : Type} (m : outcome A) (k : A -> outcome B) : outcome B :=
  match m with
  | Ok a => k a
  | Raise e => Raise e
  end.

Notation "x <- m ;; k" := (bind m (fun x => k))
  (at level 61, m at next level, right associativity).
Notation "' pat <- m ;; k" := (bind m (fun x => match x with pat => k end))
  (at level 61, pat pattern, m at next level, right associativity).

(** [mapM f l]: the calls [f x] for [x] in [l], in order, stopping at the
    first one that raises. *)
Fixpoint mapM {A B : Type} (f : A -> outcome B) (l : list A) : outcome (list B) :=
  match l with
  | [] => Ok []
  | x :: t => y <- f x ;; ys <- mapM f t ;; Ok (y :: ys)
  end.

(** ** Python values *)

Inductive pyval : Type :=
| PNone
| PBool (b : bool)
| PInt (n : Z)
| PNaN
| PStr (s : string)
| PList (l : list pyval)
| PDict (d : list (string * pyval)).

Fixpoint assoc {A : Type} (k : string) (d : list (string * A)) : option A :=
  match d with
  | [] => None
  | (k', v) :: t => if String.eqb k k' then Some v else assoc k t
  end.

(** [d[k] = v] on an association list: the binding of [k] is replaced
    where it stands, or added at the end. *)
Fixpoint update {A : Type} (k : string) (v : A) (d : list (string * A))
  : list (string * A) :=
  match d with
  | [] => [(k, v)]
  | (k', w) :: t => if String.eqb k k' then (k, v) :: t else (k', w) :: update k v t
  end.

(** *** Text *)

Definition is_lower (c : ascii) : bool :=
  ((97 <=? nat_of_ascii c) && (nat_of_ascii c <=? 122))%nat.

Definition upper_ascii (c : ascii) : ascii :=
  if is_lower c then ascii_of_nat (nat_of_ascii c - 32) else c.

(** [str.upper] on an ASCII text: the letters a to z upper-cased, every
    other byte as it is. *)
Fixpoint upper (s : string) : string :=
  match s with
  | EmptyString => EmptyString
  | String c t => String (upper_ascii c) (upper t)
  end.

(** A text whose bytes are all below 128. *)
Definition is_ascii (s : string) : bool :=
  forallb (fun c => (nat_of_ascii c <? 128)%nat) (list_ascii_of_string s).

(** [needle in hay] for two strings: [needle] occurs in [hay] as a
    contiguous run. *)
Fixpoint str_contains (needle hay : string) : bool :=
  String.prefix needle hay ||
  match hay with
  | EmptyString => false
  | String _ t => str_contains needle t
  end.

(** [s.split(sep)] for a separator of one character. *)
Fixpoint split (sep : ascii) (s : string) : list string :=
  match s with
  | EmptyString => [EmptyString]
  | String c t =>
      if Ascii.eqb c sep then EmptyString :: split sep t
      else match split sep t with
           | h :: r => String c h :: r
           | [] => [String c EmptyString]
           end
  end.

Definition is_digit (c : ascii) : bool :=
  ((48 <=? nat_of_ascii c) && (nat_of_ascii c <=? 57))%nat.

Definition digit_value (c : ascii) : Z := Z.of_nat (nat_of_ascii c - 48).

(** The blanks [int] skips around a literal in an ASCII text: tab to
    carriage return, and the space. *)
Definition is_space (c : ascii) : bool :=
  let n := nat_of_ascii c in
  (((9 <=? n) && (n <=? 13)) || (n =? 32))%nat.

Fixpoint drop_space (l : list ascii) : list ascii :=
  match l with
  | c :: t => if is_space c then drop_space t else l
  | [] => []
  end.

Definition strip (l : list ascii) : list ascii :=
  rev (drop_space (rev (drop_space l))).

(** The digits of an integer literal: at least one digit, and single
    underscores between digits only.  [prev] says that the character just
    read was a digit; the result is the value and the number of digits. *)
Fixpoint int_digits (prev : bool) (acc : Z) (count : nat) (l : list ascii)
  : option (Z * nat) :=
  match l with
  | [] => if prev then Some (acc, count) else None
  | c :: t =>
      if is_digit c then int_digits true (acc * 10 + digit_value c) (S count) t
      else if Ascii.eqb c "_" then
             (if prev then int_digits false acc count t else None)
           else None
  end.

(** CPython's default bound on the digits of a decimal literal
    ([sys.int_info.default_max_str_digits]). *)
Definition max_str_digits : nat := 4300.

(** [int(s)] for an ASCII string [s]: blanks around, an optional sign,
    decimal digits; [ValueError] on anything else.  A text this reads is
    ASCII throughout; on a text with a byte above 127 it raises, where
    [int] may read digits and blanks of other scripts. *)
Definition py_int_of_string (s : string) : outcome Z :=
  let body := strip (list_ascii_of_string s) in
  let '(neg, ds) :=
    match body with
    | c :: t => if Ascii.eqb c "-" then (true, t)
                else if Ascii.eqb c "+" then (false, t)
                else (false, body)
    | [] => (false, body)
    end in
  match int_digits false 0 0 ds with
  | Some (v, n) =>
      if (max_str_digits <? n)%nat then Raise ValueError
      else Ok (if neg then - v else v)
  | None => Raise ValueError
  end.

(** *** Operators and methods on values *)

(** The integer a number stands for in arithmetic ([bool] is a subclass
    of [int]). *)
Definition as_int (v : pyval) : option Z :=
  match v with
  | PInt n => Some n
  | PBool b => Some (if b then 1 else 0)
  | _ => None
  end.

(** [a == b].  NaN equals nothing; numbers compare by value; lists
    compare element by element and dicts binding by binding. *)
Fixpoint py_eq (a b : pyval) : bool :=
  match a, b with
  | PNone, PNone => true
  | PBool x, PBool y => Bool.eqb x y
  | PBool x, PInt n => (if x then 1 else 0) =? n
  | PInt n, PBool x => n =? (if x then 1 else 0)
  | PInt n, PInt m => n =? m
  | PStr s, PStr t => String.eqb s t
  | PList xs, PList ys =>
      (fix go (xs ys : list pyval) : bool :=
         match xs, ys with
         | [], [] => true
         | x :: xs', y :: ys' => py_eq x y && go xs' ys'
         | _, _ => false
         end) xs ys
  | PDict d, PDict e =>
      (fix go (d e : list (string * pyval)) : bool :=
         match d, e with
         | [], [] => true
         | (k, x) :: d', (k', y) :: e' => String.eqb k k' && py_eq x y && go d' e'
         | _, _ => false
         end) d e
  | _, _ => false
  end.

(** [v.get(k)]: only a dict has the method. *)
Definition py_get (v : pyval) (k : string) : outcome pyval :=
  match v with
  | PDict d => Ok (match assoc k d with Some x => x | None => PNone end)
  | _ => Raise AttributeError
  end.

(** [v[k]] for a string [k]. *)
Definition py_getitem (v : pyval) (k : string) : outcome pyval :=
  match v with
  | PDict d => match assoc k d with Some x => Ok x | None => Raise KeyError end
  | _ => Raise TypeError
  end.

(** [v[i]] for an integer [i >= 0].  The keys of a dict read from JSON
    are strings, so an integer is never one of them. *)
Definition py_index (v : pyval) (i : nat) : outcome pyval :=
  match v with
  | PList l => match nth_error l i with Some x => Ok x | None => Raise IndexError end
  | PStr s => match String.get i s with
              | Some c => Ok (PStr (String c EmptyString))
              | None => Raise IndexError
              end
  | PDict _ => Raise KeyError
  | _ => Raise TypeError
  end.

(** [a in b]. *)
Definition py_in (a b : pyval) : outcome bool :=
  match b with
  | PStr hay =>
      match a with
      | PStr needle => Ok (str_contains needle hay)
      | _ => Raise TypeError
      end
  | PList l => Ok (existsb (py_eq a) l)
  | PDict d =>
      match a with
      | PStr k => Ok (match assoc k d with Some _ => true | None => false end)
      | PList _ | PDict _ => Raise TypeError
      | _ => Ok false
      end
  | _ => Raise TypeError
  end.

(** [for x in v]: the items the loop visits. *)
Definition py_iter (v : pyval) : outcome (list pyval) :=
  match v with
  | PList l => Ok l
  | PDict d => Ok (map (fun kv => PStr (fst kv)) d)
  | PStr s => Ok (map (fun c => PStr (String c EmptyString)) (list_ascii_of_string s))
  | _ => Raise TypeError
  end.

(** [v.upper()] *)
Definition py_upper (v : pyval) : outcome pyval :=
  match v with
  | PStr s => Ok (PStr (upper s))
  | _ => Raise AttributeError
  end.

(** [v.split(':')] *)
Definition py_split_colon (v : pyval) : outcome (list string) :=
  match v with
  | PStr s => Ok (split ":" s)
  | _ => Raise AttributeError
  end.

(** [v <= n] for an integer [n]. *)
Definition py_le_int (v : pyval) (n : Z) : outcome bool :=
  match v with
  | PNaN => Ok false
  | _ => match as_int v with
         | Some m => Ok (m <=? n)
         | None => Raise TypeError
         end
  end.

(** [n - v] for an integer [n]. *)
Definition py_int_sub (n : Z) (v : pyval) : outcome pyval :=
  match v with
  | PNaN => Ok PNaN
  | _ => match as_int v with
         | Some m => Ok (PInt (n - m))
         | None => Raise TypeError
         end
  end.

(** [v * n] and [n + v] for an integer [n] and a number [v]. *)
Definition py_mul_int (v : pyval) (n : Z) : pyval :=
  match v with
  | PInt m => PInt (m * n)
  | _ => v
  end.

Definition py_int_add (n : Z) (v : pyval) : pyval :=
  match v with
  | PInt m => PInt (n + m)
  | _ => v
  end.

(** ** 01-cfdscraper.py: [convert_clock_to_seconds] *)

(** [minutes, seconds = map(int, clock.split(':'))]: the unpacking takes
    exactly two items, and every failure of it is a [ValueError]. *)
Definition unpack_two_ints (parts : list string) : outcome (Z * Z) :=
  match parts with
  | [a; b] => m <- py_int_of_string a ;; s <- py_int_of_string b ;; Ok (m, s)
  | _ => Raise ValueError
  end.

Definition convert_clock_to_seconds (clock quarter : pyval) : outcome pyval :=
  match clock with
  | PNone => Ok PNone
  | _ =>
      parts <- py_split_colon clock ;;
      '(minutes, seconds) <- unpack_two_ints parts ;;
      let quarter_seconds := minutes * 60 + seconds in
      le4 <- py_le_int quarter 4 ;;
      factor <- (if le4 then py_int_sub 4 quarter else Ok (PInt 0)) ;;
      let total_seconds := py_mul_int (py_mul_int factor 15) 60 in
      Ok (py_int_add quarter_seconds total_seconds)
  end.

(** ** 01-cfdscraper.py: [get_home_away] *)

(** The twelve names the function assigns and returns, in the order of
    the returned tuple. *)
Record HomeAway : Type := {
  _home_team : pyval;
  _hid : pyval;
  _away_team : pyval;
  _aid : pyval;
  h_color : pyval;
  a_color : pyval;
  h_rank : pyval;
  a_rank : pyval;
  h_logo : pyval;
  a_logo : pyval;
  h_location : pyval;
  a_location : pyval
}.

(** [with_default_values]: a call that passes only [_json] starts with
    every other parameter at [None]. *)
Definition defaults : HomeAway :=
  {| _home_team := PNone; _hid := PNone; _away_team := PNone; _aid := PNone;
     h_color := PNone; a_color := PNone; h_rank := PNone; a_rank := PNone;
     h_logo := PNone; a_logo := PNone; h_location := PNone; a_location := PNone |}.

Definition set__home_team (v : pyval) (r : HomeAway) : HomeAway :=
  {| _home_team := v; _hid := _hid r; _away_team := _away_team r; _aid := _aid r;
     h_color := h_color r; a_color := a_color r; h_rank := h_rank r; a_rank := a_rank r;
     h_logo := h_logo r; a_logo := a_logo r; h_location := h_location r;
     a_location := a_location r |}.
Definition set__hid (v : pyval) (r : HomeAway) : HomeAway :=
  {| _home_team := _home_team r; _hid := v; _away_team := _away_team r; _aid := _aid r;
     h_color := h_color r; a_color := a_color r; h_rank := h_rank r; a_rank := a_rank r;
     h_logo := h_logo r; a_logo := a_logo r; h_location := h_location r;
     a_location := a_location r |}.
Definition set__away_team (v : pyval) (r : HomeAway) : HomeAway :=
  {| _home_team := _home_team r; _hid := _hid r; _away_team := v; _aid := _aid r;
     h_color := h_color r; a_color := a_color r; h_rank := h_rank r; a_rank := a_rank r;
     h_logo := h_logo r; a_logo := a_logo r; h_location := h_location r;
     a_location := a_location r |}.
Definition set__aid (v : pyval) (r : HomeAway) : HomeAway :=
  {| _home_team := _home_team r; _hid := _hid r; _away_team := _away_team r; _aid := v;
     h_color := h_color r; a_color := a_color r; h_rank := h_rank r; a_rank := a_rank r;
     h_logo := h_logo r; a_logo := a_logo r; h_location := h_location r;
     a_location := a_location r |}.
Definition set_h_color (v : pyval) (r : HomeAway) : HomeAway :=
  {| _home_team := _home_team r; _hid := _hid r; _away_team := _away_team r; _aid := _aid r;
     h_color := v; a_color := a_color r; h_rank := h_rank r; a_rank := a_rank r;
     h_logo := h_logo r; a_logo := a_logo r; h_location := h_location r;
     a_location := a_location r |}.
Definition set_a_color (v : pyval) (r : HomeAway) : HomeAway :=
  {| _home_team := _home_team r; _hid := _hid r; _away_team := _away_team r; _aid := _aid r;
     h_color := h_color r; a_color := v; h_rank := h_rank r; a_rank := a_rank r;
     h_logo := h_logo r; a_logo := a_logo r; h_location := h_location r;
     a_location := a_location r |}.
Definition set_h_rank (v : pyval) (r : HomeAway) : HomeAway :=
  {| _home_team := _home_team r; _hid := _hid r; _away_team := _away_team r; _aid := _aid r;
     h_color := h_color r; a_color := a_color r; h_rank := v; a_rank := a_rank r;
     h_logo := h_logo r; a_logo := a_logo r; h_location := h_location r;
     a_location := a_location r |}.
Definition set_a_rank (v : pyval) (r : HomeAway) : HomeAway :=
  {| _home_team := _home_team r; _hid := _hid r; _away_team := _away_team r; _aid := _aid r;
     h_color := h_color r; a_color := a_color r; h_rank := h_rank r; a_rank := v;
     h_logo := h_logo r; a_logo := a_logo r; h_location := h_location r;
     a_location := a_location r |}.
Definition set_h_logo (v : pyval) (r : HomeAway) : HomeAway :=
  {| _home_team := _home_team r; _hid := _hid r; _away_team := _away_team r; _aid := _aid r;
     h_color := h_color r; a_color := a_color r; h_rank := h_rank r; a_rank := a_rank r;
     h_logo := v; a_logo := a_logo r; h_location := h_location r;
     a_location := a_location r |}.
Definition set_a_logo (v : pyval) (r : HomeAway) : HomeAway :=
  {| _home_team := _home_team r; _hid := _hid r; _away_team := _away_team r; _aid := _aid r;
     h_color := h_color r; a_color := a_color r; h_rank := h_rank r; a_rank := a_rank r;
     h_logo := h_logo r; a_logo := v; h_location := h_location r;
     a_location := a_location r |}.
Definition set_h_location (v : pyval) (r : HomeAway) : HomeAway :=
  {| _home_team := _home_team r; _hid := _hid r; _away_team := _away_team r; _aid := _aid r;
     h_color := h_color r; a_color := a_color r; h_rank := h_rank r; a_rank := a_rank r;
     h_logo := h_logo r; a_logo := a_logo r; h_location := v;
     a_location := a_location r |}.
Definition set_a_location (v : pyval) (r : HomeAway) : HomeAway :=
  {| _home_team := _home_team r; _hid := _hid r; _away_team := _away_team r; _aid := _aid r;
     h_color := h_color r; a_color := a_color r; h_rank := h_rank r; a_rank := a_rank r;
     h_logo := h_logo r; a_logo := a_logo r; h_location := h_location r;
     a_location := v |}.

(** One assignment [name = expression]: the name to set and the outcome
    of the expression (the expressions read [_json] only). *)
Definition assignment : Type := ((pyval -> HomeAway -> HomeAway) * outcome pyval)%type.

(** Assignments run in order; the first expression that raises stops the
    run and leaves the names assigned so far as they are. *)
Fixpoint run_assignments (l : list assignment) (st : HomeAway) : HomeAway * option exc :=
  match l with
  | [] => (st, None)
  | (set, Ok v) :: t => run_assignments t (set v st)
  | (_, Raise e) :: _ => (st, Some e)
  end.

(** [c['rank'] if 'rank' in c else np.nan] *)
Definition rank_of (c : pyval) : outcome pyval :=
  has <- py_in (PStr "rank") c ;;
  if has then py_getitem c "rank" else Ok PNaN.

(** [c.get('team').get('logos')[0].get('href')] *)
Definition logo_of (c : pyval) : outcome pyval :=
  t <- py_get c "team" ;;
  l <- py_get t "logos" ;;
  l0 <- py_index l 0 ;;
  py_get l0 "href".

(** [c.get('team')[k]] *)
Definition team_item (c : pyval) (k : string) : outcome pyval :=
  t <- py_get c "team" ;; py_getitem t k.

Definition home_branch (c : pyval) : list assignment :=
  [ (set__home_team, team_item c "abbreviation");
    (set__hid, team_item c "id");
    (set_h_color, t <- py_get c "team" ;; py_get t "color");
    (set_h_rank, rank_of c);
    (set_h_logo, logo_of c);
    (set_h_location, team_item c "location") ].

Definition away_branch (c : pyval) : list assignment :=
  [ (set__away_team, team_item c "abbreviation");
    (set__aid, team_item c "id");
    (set_a_color, t <- py_get c "team" ;; py_get t "color");
    (set_a_rank, rank_of c);
    (set_a_logo, logo_of c);
    (set_a_location, team_item c "location") ].

(** The test of line 92: [_json[i].get('homeAway') == 'home']. *)
Definition is_home (_json : pyval) (i : nat) : outcome bool :=
  c <- py_index _json i ;;
  tag <- py_get c "homeAway" ;;
  Ok (py_eq tag (PStr "home")).

(** The body of the loop for one [i]. *)
Definition iteration (_json : pyval) (i : nat) (st : HomeAway) : HomeAway * option exc :=
  match is_home _json i with
  | Raise e => (st, Some e)
  | Ok b =>
      match py_index _json i with
      | Raise e => (st, Some e)
      | Ok c => run_assignments (if b then home_branch c else away_branch c) st
      end
  end.

(** [for i in range(2)] *)
Fixpoint loop (_json : pyval) (range : list nat) (st : HomeAway) : HomeAway * option exc :=
  match range with
  | [] => (st, None)
  | i :: rest =>
      match iteration _json i st with
      | (st', None) => loop _json rest st'
      | (st', Some e) => (st', Some e)
      end
  end.

(** [except Exception]: the classes the handler catches. *)
Definition is_Exception (e : exc) : bool :=
  match e with
  | AttributeError | TypeError | KeyError | IndexError | ValueError
  | UnboundLocalError | FileNotFoundError => true
  end.

Definition get_home_away (_json : pyval) : outcome HomeAway :=
  match loop _json [0%nat; 1%nat] defaults with
  | (st, None) => Ok st
  | (st, Some e) => if is_Exception e then Ok st else Raise e
  end.

(** ** 01-cfdscraper.py: [timeout_decrementor] *)

(** The entries of the row (a [pandas.Series]) that the function reads. *)
Record Series : Type := {
  play_type : pyval;
  description : pyval;
  game_seconds_remaining : pyval;
  half : pyval
}.

Definition is_None (v : pyval) : bool :=
  match v with PNone => true | _ => false end.

(** Line 146:
    [location in row['description'] or location.upper() in row['description']] *)
Definition names_location (location desc : pyval) : outcome bool :=
  a <- py_in location desc ;;
  if a then Ok true
  else u <- py_upper location ;; py_in u desc.

(** Line 158: the same test followed by [and row['description'] is not
    None], which binds to the second operand of [or]. *)
Definition names_location_ot (location desc : pyval) : outcome bool :=
  a <- py_in location desc ;;
  if a then Ok true
  else u <- py_upper location ;;
       b <- py_in u desc ;;
       Ok (b && negb (is_None desc)).

(** [df] is the dict [{'home_timeouts': h, 'away_timeouts': a}], written
    [(h, a)]; the result is the pair the function returns, which is also
    the content of [df] after the call. *)
Definition timeout_decrementor (row : Series) (df : Z * Z) (location : pyval)
  : outcome (Z * Z) :=
  let is_timeout := py_eq (play_type row) (PStr "Timeout") in
  df1 <- (if is_timeout && negb (is_None (description row)) then
            home <- names_location location (description row) ;;
            Ok (if home then (fst df - 1, snd df) else (fst df, snd df - 1))
          else Ok df) ;;
  let df2 := if py_eq (game_seconds_remaining row) (PInt 1800) then (3, 3) else df1 in
  ot <- (if py_eq (game_seconds_remaining row) (PInt 0)
         then py_in (PStr "OT") (half row) else Ok false) ;;
  if ot then
    let df3 := (1, 1) in
    if is_timeout then
      home <- names_location_ot location (description row) ;;
      Ok (if home then (fst df3 - 1, snd df3) else (fst df3, snd df3 - 1))
    else Ok df3
  else Ok df2.

(** [game_df.apply(lambda row: timeout_decrementor(row, timeout_state,
    h_location), axis=1)]: the rows in order, all calls sharing the one
    [timeout_state]; the result lists the pair returned for each row. *)
Fixpoint apply_timeouts (location : pyval) (rows : list Series) (timeout_state : Z * Z)
  : outcome (list (Z * Z)) :=
  match rows with
  | [] => Ok []
  | row :: rest =>
      s <- timeout_decrementor row timeout_state location ;;
      out <- apply_timeouts location rest s ;;
      Ok (s :: out)
  end.

(** The state a game starts with (line 269). *)
Definition initial_timeouts : Z * Z := (3, 3).

(** ** 01-cfdscraper.py: [get_play_by_play] *)

(** [str(n)] for an integer. *)
Definition str_of_Z (n : Z) : string := NilZero.string_of_int (Z.to_int n).

(** [repr(v)]; the text of a string is put between single quotes as it
    is (exact when it holds no quote, backslash or control character). *)
Fixpoint py_repr (v : pyval) : string :=
  match v with
  | PNone => "None"
  | PBool b => if b then "True" else "False"
  | PInt n => str_of_Z n
  | PNaN => "nan"
  | PStr s => "'" ++ s ++ "'"
  | PList l =>
      "[" ++
      (fix go (l : list pyval) : string :=
         match l with
         | [] => ""
         | x :: t => py_repr x ++ match t with [] => "" | _ => ", " ++ go t end
         end) l ++ "]"
  | PDict d =>
      "{" ++
      (fix go (d : list (string * pyval)) : string :=
         match d with
         | [] => ""
         | (k, x) :: t =>
             "'" ++ k ++ "': " ++ py_repr x ++
             match t with [] => "" | _ => ", " ++ go t end
         end) d ++ "}"
  end.

(** [f'{v}'] *)
Definition py_str (v : pyval) : string :=
  match v with
  | PStr s => s
  | _ => py_repr v
  end.

(** One entry of each of the lists [play_ids], [home_score], ...,
    [yards_gained], which the loop over the plays extends together. *)
Record play : Type := {
  pl_id : pyval;
  pl_home_score : pyval;
  pl_away_score : pyval;
  pl_desc : pyval;
  pl_play_type : pyval;
  pl_quarter : pyval;
  pl_clock : pyval;
  pl_down : pyval;
  pl_ydstogo : pyval;
  pl_yardline_100 : pyval;
  pl_posteam : pyval;
  pl_ball_location : pyval;
  pl_yards_gained : pyval
}.

(** [play['start'].get(k)] *)
Definition start_get (p : pyval) (k : string) : outcome pyval :=
  s <- py_getitem p "start" ;; py_get s k.

(** Lines 220-232, in the order of the source. *)
Definition extract_play (p : pyval) : outcome play :=
  id <- py_getitem p "id" ;;
  home <- py_getitem p "homeScore" ;;
  away <- py_getitem p "awayScore" ;;
  has_text <- py_in (PStr "text") p ;;
  text <- (if has_text then py_getitem p "text" else Ok (PStr "N/A")) ;;
  ty <- py_get p "type" ;;
  label <- (if negb (is_None ty)
            then ty' <- py_get p "type" ;; py_get ty' "text"
            else Ok (PStr "N/A")) ;;
  number <- (per <- py_getitem p "period" ;; py_get per "number") ;;
  display <- (c <- py_getitem p "clock" ;; py_get c "displayValue") ;;
  dn <- start_get p "down" ;;
  distance <- start_get p "distance" ;;
  to_endzone <- start_get p "yardsToEndzone" ;;
  team_id <- (t <- start_get p "team" ;; py_get t "id") ;;
  possession <- start_get p "possessionText" ;;
  yardage <- py_getitem p "statYardage" ;;
  Ok {| pl_id := id; pl_home_score := home; pl_away_score := away;
        pl_desc := text; pl_play_type := label; pl_quarter := number;
        pl_clock := display; pl_down := dn; pl_ydstogo := distance;
        pl_yardline_100 := to_endzone; pl_posteam := team_id;
        pl_ball_location := possession; pl_yards_gained := yardage |}.

(** Lines 218-219: the drives of [json['drives']['previous']] in order,
    and the plays of each in order. *)
Definition extract_plays (json : pyval) : outcome (list play) :=
  drives <- py_get json "drives" ;;
  previous <- py_get drives "previous" ;;
  ds <- py_iter previous ;;
  per_drive <- mapM (fun drive =>
                       plays <- py_get drive "plays" ;;
                       ps <- py_iter plays ;;
                       mapM extract_play ps) ds ;;
  Ok (List.concat per_drive).

(** [json.get('header').get('competitions')[0]] *)
Definition competition (json : pyval) : outcome pyval :=
  h <- py_get json "header" ;;
  cs <- py_get h "competitions" ;;
  py_index cs 0.

(** Lines 234-239; the result keeps the four values the frame uses
    ([game_id], [year], [season_type], [week]). *)
Definition header_fields (json : pyval) : outcome (pyval * pyval * pyval * pyval) :=
  game_id <- (h <- py_get json "header" ;; py_get h "id") ;;
  year <- (h <- py_get json "header" ;; s <- py_get h "season" ;; py_get s "year") ;;
  season_type <- (h <- py_get json "header" ;; s <- py_get h "season" ;; py_get s "type") ;;
  is_neutral <- (c <- competition json ;; py_getitem c "neutralSite") ;;
  is_conference_play <- (c <- competition json ;; py_getitem c "conferenceCompetition") ;;
  week <- (h <- py_get json "header" ;; py_get h "week") ;;
  Ok (game_id, year, season_type, week).

(** A frame: its columns by name, in the order they were added. *)
Definition frame : Type := list (string * list pyval).

(** The cell of column [name] in row [i]. *)
Definition cell (df : frame) (name : string) (i : nat) : option pyval :=
  match assoc name df with
  | Some col => nth_error col i
  | None => None
  end.

(** A scalar assigned to a column fills every row. *)
Definition broadcast (v : pyval) (n : nat) : list pyval := repeat v n.

(** Line 254 *)
Definition posteam_type_of (posteam home_id away_id : pyval) : pyval :=
  if py_eq posteam home_id then PStr "home"
  else if py_eq posteam away_id then PStr "away"
  else PStr "neutral".

(** Line 255 *)
Definition defteam_of (posteam home_id away_id : pyval) : pyval :=
  if py_eq posteam home_id then away_id else home_id.

(** Line 262 *)
Definition half_of (x : pyval) : pyval :=
  if existsb (py_eq x) [PInt 1; PInt 2] then PStr "Half1"
  else if existsb (py_eq x) [PInt 3; PInt 4] then PStr "Half2"
  else PStr ("OT" ++ py_str x).

(** Line 263 *)
Definition down_of (down : pyval) : pyval :=
  if negb (py_eq down (PInt 0)) then down else PNaN.

(** The rows line 270 hands to [timeout_decrementor]. *)
Definition series_rows (plays : list play) (seconds : list pyval) : list Series :=
  map (fun ps => {| play_type := pl_play_type (fst ps);
                    description := pl_desc (fst ps);
                    game_seconds_remaining := snd ps;
                    half := half_of (pl_quarter (fst ps)) |})
      (combine plays seconds).

(** Lines 271-272: the counter of the side whose id is [team]. *)
Definition tos_of (team home_id : pyval) (timeouts : Z * Z) : pyval :=
  if py_eq team home_id then PInt (fst timeouts) else PInt (snd timeouts).

(** Line 260: [game_df.apply(lambda row: convert_clock_to_seconds(
    row['clock'], row['quarter']), axis=1)] assigned to one column.  The
    calls run down the rows in order.  On a frame with no rows [apply]
    gives back the empty frame itself, and the assignment of a frame to
    one column raises [ValueError]. *)
Definition seconds_column (plays : list play) : outcome (list pyval) :=
  match plays with
  | [] => Raise ValueError
  | _ :: _ => mapM (fun p => convert_clock_to_seconds (pl_clock p) (pl_quarter p)) plays
  end.

(** Lines 243-272.  [roster] is [None] when line 193 left the twelve
    names unbound.  The result is [game_df] as it stands when the block
    ends or raises, and the exception if there is one. *)
Definition fill_frame (roster : option HomeAway)
    (header : pyval * pyval * pyval * pyval) (plays : list play)
  : frame * option exc :=
  let '(game_id, year, season_type, week) := header in
  let n := List.length plays in
  let posteam := map pl_posteam plays in
  let game_df : frame := [] in
  let game_df := update "game_id" (broadcast game_id n) game_df in
  let game_df := update "play_id" (map pl_id plays) game_df in
  match roster with
  | None => (game_df, Some UnboundLocalError)
  | Some ha =>
      let home_id := _hid ha in
      let away_id := _aid ha in
      let game_df := update "home_id" (broadcast home_id n) game_df in
      let game_df := update "home_team" (broadcast (_home_team ha) n) game_df in
      let game_df := update "home_rank" (broadcast (h_rank ha) n) game_df in
      let game_df := update "away_id" (broadcast away_id n) game_df in
      let game_df := update "away_team" (broadcast (_away_team ha) n) game_df in
      let game_df := update "away_rank" (broadcast (a_rank ha) n) game_df in
      let game_df :=
        update "season_type"
          (broadcast (if py_eq season_type (PInt 2) then PStr "regular" else PStr "bowl") n)
          game_df in
      let game_df := update "week" (broadcast week n) game_df in
      let game_df := update "posteam" posteam game_df in
      let game_df :=
        update "posteam_type"
          (map (fun p => posteam_type_of p home_id away_id) posteam) game_df in
      let defteam := map (fun p => defteam_of p home_id away_id) posteam in
      let game_df := update "defteam" defteam game_df in
      let game_df := update "yardline_100" (map pl_yardline_100 plays) game_df in
      let game_df := update "year" (broadcast year n) game_df in
      let game_df := update "quarter" (map pl_quarter plays) game_df in
      let game_df := update "clock" (map pl_clock plays) game_df in
      match seconds_column plays with
      | Raise e => (game_df, Some e)
      | Ok seconds =>
          let game_df := update "game_seconds_remaining" seconds game_df in
          let game_df :=
            update "half" (map (fun p => half_of (pl_quarter p)) plays) game_df in
          let game_df := update "down" (map (fun p => down_of (pl_down p)) plays) game_df in
          let game_df := update "ydstogo" (map pl_ydstogo plays) game_df in
          let game_df := update "play_type" (map pl_play_type plays) game_df in
          let game_df := update "yds_gained" (map pl_yards_gained plays) game_df in
          let game_df := update "description" (map pl_desc plays) game_df in
          let timeout_state := initial_timeouts in
          match apply_timeouts (h_location ha) (series_rows plays seconds) timeout_state with
          | Raise e => (game_df, Some e)
          | Ok timeouts =>
              let game_df :=
                update "home_timeouts" (map (fun t => PInt (fst t)) timeouts) game_df in
              let game_df :=
                update "away_timeouts" (map (fun t => PInt (snd t)) timeouts) game_df in
              let game_df :=
                update "posteam_tos"
                  (map (fun pt => tos_of (fst pt) home_id (snd pt))
                       (combine posteam timeouts)) game_df in
              let game_df :=
                update "defteam_tos"
                  (map (fun dt => tos_of (fst dt) home_id (snd dt))
                       (combine defteam timeouts)) game_df in
              (game_df, None)
          end
      end
  end.

(** The [try] block of lines 217-272. *)
Definition try_block (json : pyval) (roster : option HomeAway) : frame * option exc :=
  match extract_plays json with
  | Raise e => ([], Some e)
  | Ok plays =>
      match header_fields json with
      | Raise e => ([], Some e)
      | Ok header => fill_frame roster header plays
      end
  end.

(** Lines 192-195: the roster, or nothing bound when the lookup raises
    [AttributeError]; any other exception leaves the function. *)
Definition resolve_roster (json : pyval) : outcome (option HomeAway) :=
  match (c <- competition json ;;
         competitors <- py_get c "competitors" ;;
         get_home_away competitors) with
  | Ok r => Ok (Some r)
  | Raise AttributeError => Ok None
  | Raise e => Raise e
  end.

(** [get_play_by_play], as a function of the document the request
    returned ([json = response.json()]). *)
Definition get_play_by_play (json : pyval) : outcome frame :=
  roster <- resolve_roster json ;;
  let '(game_df, raised) := try_block json roster in
  match raised with
  | None => Ok game_df
  | Some AttributeError => Ok game_df
  | Some e => Raise e
  end.

(** ** 02-clean.py *)

(** A row of a season file as [pd.read_csv] gives it: its [play_id]
    cell and the rest of its cells.  The [play_id] cell is an integer
    where the column is numeric, NaN where the file has none, and a text
    where the column is not numeric (as when one id of the file does not
    fit 64 bits). *)
Record csv_row : Type := {
  play_id : pyval;
  other_cells : list pyval
}.

(** [abs(column)]: defined on numbers, a [TypeError] on anything else. *)
Definition positive (column : pyval) : outcome pyval :=
  match column with
  | PInt n => Ok (PInt (Z.abs n))
  | PBool b => Ok (PInt (if b then 1 else 0))
  | PNaN => Ok PNaN
  | _ => Raise TypeError
  end.

(** [curr['play_id'] = curr['play_id'].apply(positive)]: the calls run
    down the column, and the column is assigned when all have returned. *)
Definition apply_positive (curr : list csv_row) : outcome (list csv_row) :=
  mapM (fun r => id <- positive (play_id r) ;;
                 Ok {| play_id := id; other_cells := other_cells r |}) curr.

(** The files on disk, each by its name and the rows [pd.read_csv] gives
    for it: a cell is what [read_csv] makes of the text in the file (a
    missing marker such as N/A is NaN there, and [to_csv] writes it back
    as the empty text).  A file is read back as the rows [to_csv] was
    given.  Every file has a [play_id] column; one without it, on which
    line 19 raises [KeyError], is outside the model.  The statements
    below are about the number of rows and the [play_id] cells only. *)
Definition files : Type := list (string * list csv_row).

Definition read_csv (fs : files) (file : string) : outcome (list csv_row) :=
  match assoc file fs with
  | Some rows => Ok rows
  | None => Raise FileNotFoundError
  end.

Definition to_csv (rows : list csv_row) (file : string) (fs : files) : files :=
  update file rows fs.

Definition ends_with (suffix s : string) : bool :=
  (String.length suffix <=? String.length s)%nat &&
  String.eqb (substring (String.length s - String.length suffix) (String.length suffix) s)
             suffix.

(** The names [glob.glob('years/' + '*.csv')] matches. *)
Definition matches_years_csv (name : string) : bool :=
  String.prefix "years/" name &&
  (let base := substring 6 (String.length name - 6) name in
   ends_with ".csv" base && negb (str_contains "/" base) && negb (String.prefix "." base)).

Definition glob_years_csv (fs : files) : list string :=
  filter matches_years_csv (map fst fs).

(** The loop of lines 17-21 over the files still to visit. *)
Fixpoint clean_loop (csv_files : list string) (fs : files) (combined_data : list csv_row)
  : outcome (files * list csv_row) :=
  match csv_files with
  | [] => Ok (fs, combined_data)
  | file :: rest =>
      curr <- read_csv fs file ;;
      curr <- apply_positive curr ;;
      let fs := to_csv curr file fs in
      clean_loop rest fs (combined_data ++ curr)%list
  end.

Definition combined_csv : string := "years/combined.csv".

(** Lines 14-24: the files after the pass. *)
Definition clean (fs : files) : outcome files :=
  let csv_files := glob_years_csv fs in
  '(fs', combined_data) <- clean_loop csv_files fs [] ;;
  Ok (to_csv combined_data combined_csv fs').

(** ** Notions the statements use *)

(** A field of a clock display: one decimal digit or more. *)
Definition all_digits (s : string) : bool :=
  negb (String.eqb s "") && forallb is_digit (list_ascii_of_string s).

(** The number a run of decimal digits writes. *)
Definition decimal (s : string) : Z :=
  fold_left (fun acc c => acc * 10 + digit_value c) (list_ascii_of_string s) 0.

(** A text with no colon in it. *)
Definition no_colon (s : string) : bool :=
  forallb (fun c => negb (Ascii.eqb c ":")) (list_ascii_of_string s).

(** The display ["MM:SS"] of [minutes] and [seconds]. *)
Definition clock_display (minutes seconds : string) : string :=
  minutes ++ ":" ++ seconds.

(** The names the home branch assigns, and those the away branch
    assigns. *)
Definition home_fields (r : HomeAway) : list pyval :=
  [_home_team r; _hid r; h_color r; h_rank r; h_logo r; h_location r].

Definition away_fields (r : HomeAway) : list pyval :=
  [_away_team r; _aid r; a_color r; a_rank r; a_logo r; a_location r].

(** An assignment that leaves the home names, or the away names, as they
    are. *)
Definition keeps_home (a : assignment) : Prop :=
  forall v r, home_fields (fst a v r) = home_fields r.

Definition keeps_away (a : assignment) : Prop :=
  forall v r, away_fields (fst a v r) = away_fields r.

(** A description as the row holds it: a text, or [None] when absent. *)
Definition of_text (d : option string) : pyval :=
  match d with
  | Some s => PStr s
  | None => PNone
  end.

(** The reset boundaries: the row that starts the second half, and a row
    at second 0 of a period whose half label holds "OT". *)
Definition is_half_reset (row : Series) : bool :=
  py_eq (game_seconds_remaining row) (PInt 1800).

Definition is_ot_reset (row : Series) : bool :=
  match (if py_eq (game_seconds_remaining row) (PInt 0)
         then py_in (PStr "OT") (half row) else Ok false) with
  | Ok b => b
  | Raise _ => false
  end.

(** A match that ignores letter case: the two texts compared after
    upper-casing both. *)
Definition contains_ignoring_case (needle hay : string) : bool :=
  str_contains (upper needle) (upper hay).

(** The match lines 146 and 158 make: the location as it is written, or
    upper-cased, inside the description as it is written. *)
Definition names_home (location desc : string) : bool :=
  str_contains location desc || str_contains (upper location) desc.

(** A home location on which [upper] is [str.upper]: a text in ASCII, or
    a value that is no text (which has no [upper] to call). *)
Definition ascii_location (location : pyval) : bool :=
  match location with
  | PStr l => is_ascii l
  | _ => true
  end.

(** A row of play type "Timeout". *)
Definition is_timeout_row (row : Series) : bool :=
  py_eq (play_type row) (PStr "Timeout").

(** The side a Timeout row charges: [Some true] for home, [Some false]
    for away, [None] when the row charges nobody.  On an overtime reset
    row the charge is that of line 158, elsewhere that of line 146. *)
Definition charge (location : pyval) (row : Series) : option bool :=
  if is_timeout_row row then
    if is_ot_reset row then
      match names_location_ot location (description row) with
      | Ok b => Some b
      | Raise _ => None
      end
    else if is_None (description row) then None
    else match names_location location (description row) with
         | Ok b => Some b
         | Raise _ => None
         end
  else None.

(** 1 when [row] charges [side], 0 when it does not. *)
Definition charges (location : pyval) (side : bool) (row : Series) : Z :=
  match charge location row with
  | Some b => if Bool.eqb b side then 1 else 0
  | None => 0
  end.

(** What the last reset boundary of [rows] granted each side, [g] being
    the grant before them: 3 at the start of the second half, 1 at an
    overtime reset. *)
Fixpoint granted (g : Z) (rows : list Series) : Z :=
  match rows with
  | [] => g
  | row :: rest =>
      granted (if is_ot_reset row then 1 else if is_half_reset row then 3 else g) rest
  end.

(** The timeouts charged to [side] since the last reset boundary of
    [rows], [c] being the count before them: an overtime reset row
    starts the count at its own charge, the start of the second half at
    0. *)
Fixpoint charged (location : pyval) (side : bool) (c : Z) (rows : list Series) : Z :=
  match rows with
  | [] => c
  | row :: rest =>
      charged location side
        (if is_ot_reset row then charges location side row
         else if is_half_reset row then 0
         else c + charges location side row) rest
  end.

(** After no row has a side been charged more than the last reset
    boundary granted it. *)
Definition within_grant (location : pyval) (rows : list Series) : Prop :=
  forall pre r post,
    rows = (pre ++ r :: post)%list ->
    charged location true 0 (pre ++ [r]) <= granted 3 (pre ++ [r]) /\
    charged location false 0 (pre ++ [r]) <= granted 3 (pre ++ [r]).

(** Both counters of an emitted pair are at most [b]. *)
Definition at_most (b : Z) (s : Z * Z) : Prop := fst s <= b /\ snd s <= b.

(** A payload with no drives: no ["drives"] key, or [null] under it. *)
Definition lacks_drives (json : pyval) : bool :=
  match json with
  | PDict d => match assoc "drives" d with
               | None | Some PNone => true
               | Some _ => false
               end
  | _ => false
  end.

(** The roster lookup of lines 192-195 raises nothing, or an
    [AttributeError], which line 194 catches. *)
Definition roster_lookup_passes (json : pyval) : bool :=
  match resolve_roster json with
  | Ok _ => true
  | Raise _ => false
  end.

(** The rows of [file] on the disk [fs]; none for a name that is not
    there. *)
Definition rows_of (fs : files) (file : string) : list csv_row :=
  match assoc file fs with
  | Some rows => rows
  | None => []
  end.






(** ** Sample rows and payloads *)

(** A Timeout row in the first half whose description names Alabama. *)
Definition alabama_timeout : Series :=
  {| play_type := PStr "Timeout";
     description := PStr "Timeout Alabama";
     game_seconds_remaining := PInt 2000;
     half := PStr "Half1" |}.

(** A Timeout row at second 0 of the fifth period. *)
Definition overtime_timeout : Series :=
  {| play_type := PStr "Timeout";
     description := PStr "Timeout ALABAMA";
     game_seconds_remaining := PInt 0;
     half := PStr "OT5" |}.

(** A competitor entry, with or without the [homeAway] tag. *)
Definition competitor (tag : option string) (abbreviation id location : string) : pyval :=
  PDict ((match tag with
          | Some t => [("homeAway", PStr t)]
          | None => []
          end) ++
         [("team", PDict [("abbreviation", PStr abbreviation);
                          ("id", PStr id);
                          ("color", PStr "9e1b32");
                          ("logos", PList [PDict [("href", PStr "logo.png")]]);
                          ("location", PStr location)])])%list.

Definition tagged_competitors : pyval :=
  PList [competitor (Some "home") "ALA" "333" "Alabama";
         competitor (Some "away") "AUB" "2" "Auburn"].

(** Both entries without the [homeAway] key. *)
Definition untagged_competitors : pyval :=
  PList [competitor None "ALA" "333" "Alabama";
         competitor None "AUB" "2" "Auburn"].

Definition sample_play (id : Z) (text : pyval) (label : string) (period : Z)
    (display team_id : string) : pyval :=
  PDict [("id", PInt id); ("homeScore", PInt 0); ("awayScore", PInt 0);
         ("text", text);
         ("type", PDict [("text", PStr label)]);
         ("period", PDict [("number", PInt period)]);
         ("clock", PDict [("displayValue", PStr display)]);
         ("start", PDict [("down", PInt 1); ("distance", PInt 10);
                          ("yardsToEndzone", PInt 75);
                          ("team", PDict [("id", PStr team_id)]);
                          ("possessionText", PStr "ALA 25")]);
         ("statYardage", PInt 3)].

Definition sample_header (competitors : pyval) : pyval :=
  PDict [("id", PStr "401520281");
         ("season", PDict [("year", PInt 2023); ("type", PInt 2)]);
         ("week", PInt 1);
         ("competitions",
          PList [PDict [("neutralSite", PBool false);
                        ("conferenceCompetition", PBool true);
                        ("competitors", competitors)]])].

Definition sample_game (competitors : pyval) (plays : list pyval) : pyval :=
  PDict [("header", sample_header competitors);
         ("drives", PDict [("previous", PList [PDict [("plays", PList plays)]])])].

(** A game whose one play starts with a team that is neither side. *)
Definition kickoff_game : pyval :=
  sample_game tagged_competitors
    [sample_play 1 (PStr "Kickoff") "Kickoff" 1 "15:00" "2579"].

Definition kickoff_frame : frame :=
  Eval vm_compute in
    match get_play_by_play kickoff_game with
    | Ok df => df
    | Raise _ => []
    end.

(** A game with its header and no drives, and a document whose header
    names no competitions. *)
Definition game_without_drives : pyval :=
  PDict [("header", sample_header tagged_competitors)].

Definition header_without_competitions : pyval :=
  PDict [("header", PDict [])].

(** A game of one pass play whose competitors carry no [homeAway] tag. *)
Definition untagged_game : pyval :=
  sample_game untagged_competitors
    [sample_play 1 (PStr "Jalen Milroe pass complete") "Pass Reception" 1 "14:50" "333"].

(** A game whose one play is a Timeout at second 0 of the fifth period,
    with [null] for its text. *)
Definition overtime_game : pyval :=
  sample_game tagged_competitors
    [sample_play 1 PNone "Timeout" 5 "0:00" "333"].

(** ** Frames that grow: [concat] and [_append] *)

(** The number of rows of a frame whose columns have one length. *)
Definition nrows (df : frame) : nat :=
  match df with
  | [] => 0%nat
  | (_, col) :: _ => List.length col
  end.

Definition has_column (df : frame) (name : string) : bool :=
  match assoc name df with
  | Some _ => true
  | None => false
  end.

(** [pd.concat([a, b], ignore_index=True)], which [a._append(b,
    ignore_index=True)] calls: the rows of [a] and then those of [b],
    under the columns of [a] followed by the new ones of [b]; a cell
    that a frame has no column for is NaN. *)
Definition frame_append (a b : frame) : frame :=
  (map (fun kc => (fst kc,
                   (snd kc ++ match assoc (fst kc) b with
                              | Some col => col
                              | None => repeat PNaN (nrows b)
                              end)%list)) a ++
   map (fun kc => (fst kc, (repeat PNaN (nrows a) ++ snd kc)%list))
       (filter (fun kc => negb (has_column a (fst kc))) b))%list.

(** ** 01-cfdscraper.py: [get_teams] *)

(** [pd.DataFrame(columns=['team_name', 'team_id', 'color', 'logo'])] *)
Definition no_teams : frame :=
  [("team_name", []); ("team_id", []); ("color", []); ("logo", [])].

(** The frame of one row that lines 302 and 305 build. *)
Definition one_team (location name id color logo : pyval) : frame :=
  [("team_location", [location]); ("team_name", [name]); ("team_id", [id]);
   ("color", [PStr ("#" ++ py_str color)]); ("logo", [logo])].

(** [x not in teams['team_name'].values]: no cell of the column equals
    [x]. *)
Definition not_in_team_names (x : pyval) (teams : frame) : outcome bool :=
  match assoc "team_name" teams with
  | Some col => Ok (negb (existsb (py_eq x) col))
  | None => Raise KeyError
  end.

(** [get_teams], as a function of the document the request returned.
    The names line 295 binds are unbound when the lookup raised
    [AttributeError]; line 301 reads [home_team] first. *)
Definition get_teams (json : pyval) : outcome frame :=
  roster <- resolve_roster json ;;
  let teams := no_teams in
  match roster with
  | None => Raise UnboundLocalError
  | Some ha =>
      new_home <- not_in_team_names (_home_team ha) teams ;;
      let teams :=
        if new_home
        then frame_append teams
               (one_team (h_location ha) (_home_team ha) (_hid ha) (h_color ha) (h_logo ha))
        else teams in
      new_away <- not_in_team_names (_away_team ha) teams ;;
      let teams :=
        if new_away
        then frame_append teams
               (one_team (a_location ha) (_away_team ha) (_aid ha) (a_color ha) (a_logo ha))
        else teams in
      Ok teams
  end.

(** ** 01-cfdscraper.py: the loop of [extract_season] *)

(** Lines 323-335, over [zip(game_ids, current_dates)].  [fetch] gives
    the document the service returns for a game id, the same to the
    request of [get_play_by_play] and to that of [get_teams]; [pbp] and
    [teams] are the two accumulators.  A [TypeError] skips what is left of the
    [try] body for that game; any other exception leaves the loop. *)
Fixpoint season_loop (fetch : Z -> pyval) (start_date end_date : Z)
    (games : list (Z * Z)) (pbp teams : frame) : outcome (frame * frame) :=
  match games with
  | [] => Ok (pbp, teams)
  | (game, date) :: rest =>
      if (start_date <=? date) && (date <=? end_date) then
        match get_play_by_play (fetch game) with
        | Raise TypeError => season_loop fetch start_date end_date rest pbp teams
        | Raise e => Raise e
        | Ok df =>
            let pbp := frame_append pbp df in
            match get_teams (fetch game) with
            | Raise TypeError => season_loop fetch start_date end_date rest pbp teams
            | Raise e => Raise e
            | Ok t =>
                season_loop fetch start_date end_date rest pbp (frame_append teams t)
            end
        end
      else season_loop fetch start_date end_date rest pbp teams
  end.

(** [extract_season] up to line 335: both accumulators start empty. *)
Definition season_accumulate (fetch : Z -> pyval) (game_ids : list Z)
    (start_date : Z) (current_dates : list Z) (end_date : Z) : outcome (frame * frame) :=
  season_loop fetch start_date end_date (combine game_ids current_dates) [] [].

(** ** 02-clean.py: the teams file *)

(** A row of the teams file: its [team_id] and the rest of its cells. *)
Record team_row : Type := {
  team_id : Z;
  team_cells : list pyval
}.

(** [drop_duplicates('team_id')] from position [i] on, [seen] being the
    ids met before: the first row of each id stays, with the position it
    had. *)
Fixpoint drop_duplicates_from (seen : list Z) (i : nat) (rows : list team_row)
  : list (nat * team_row) :=
  match rows with
  | [] => []
  | r :: rest =>
      if existsb (Z.eqb (team_id r)) seen
      then drop_duplicates_from seen (S i) rest
      else (i, r) :: drop_duplicates_from (team_id r :: seen) (S i) rest
  end.

(** [pd.read_csv('teams.csv').drop_duplicates('team_id').reset_index()]:
    the rows kept, each with its old position in the new ["index"]
    column. *)
Definition distinct_teams (rows : list team_row) : list (nat * team_row) :=
  drop_duplicates_from [] 0 rows.

(** ** More notions the statements use *)

(** The 28 columns of a complete frame, in the order lines 243-272 add
    them. *)
Definition column_names : list string :=
  ["game_id"; "play_id"; "home_id"; "home_team"; "home_rank"; "away_id";
   "away_team"; "away_rank"; "season_type"; "week"; "posteam"; "posteam_type";
   "defteam"; "yardline_100"; "year"; "quarter"; "clock";
   "game_seconds_remaining"; "half"; "down"; "ydstogo"; "play_type";
   "yds_gained"; "description";
   "home_timeouts"; "away_timeouts"; "posteam_tos"; "defteam_tos"].

(** The exceptions that reading a document can raise. *)
Definition data_error (e : exc) : bool :=
  match e with
  | AttributeError | TypeError | KeyError | IndexError | ValueError => true
  | UnboundLocalError | FileNotFoundError => false
  end.

(** A computation that raises nothing but those. *)
Definition only_data_errors {A : Type} (o : outcome A) : Prop :=
  forall e, o = Raise e -> data_error e = true.

(** The six values lines 93-98 (or 100-105) read from one entry. *)
Definition entry_values (c : pyval) : outcome (list pyval) :=
  abbreviation <- team_item c "abbreviation" ;;
  id <- team_item c "id" ;;
  color <- (t <- py_get c "team" ;; py_get t "color") ;;
  rank <- rank_of c ;;
  logo <- logo_of c ;;
  location <- team_item c "location" ;;
  Ok [abbreviation; id; color; rank; logo; location].

(** The first thing the loop reads from entry 0 raises: the test of line
    92, or the first assignment of the branch taken. *)
Definition first_read_fails (_json : pyval) : bool :=
  match is_home _json 0 with
  | Raise _ => true
  | Ok _ =>
      match py_index _json 0 with
      | Raise _ => true
      | Ok c => match team_item c "abbreviation" with
                | Raise _ => true
                | Ok _ => false
                end
      end
  end.

(** The keys line 220-232 subscript a play with. *)
Definition required_keys : list string :=
  ["id"; "homeScore"; "awayScore"; "period"; "clock"; "start"; "statYardage"].

Definition in_range (start_date end_date : Z) (game : Z * Z) : bool :=
  (start_date <=? snd game) && (snd game <=? end_date).

Definition is_text (v : pyval) : bool :=
  match v with PStr _ => true | _ => false end.

(** The start of the second half, after a home timeout late in the
    first. *)
Definition two_halves_game : pyval :=
  sample_game tagged_competitors
    [sample_play 1 (PStr "Timeout ALABAMA") "Timeout" 2 "0:30" "333";
     sample_play 2 (PStr "Kickoff") "Kickoff" 3 "15:00" "2"].

Definition two_halves_frame : frame :=
  Eval vm_compute in
    match get_play_by_play two_halves_game with
    | Ok df => df
    | Raise _ => []
    end.

(** A disk with one season file under [years/], one of whose ids is
    negative, and a season file outside it. *)
Definition season_2023_disk : files :=
  [("years/2023play_by_play.csv",
    [{| play_id := PInt (-5); other_cells := [PStr "Kickoff"] |};
     {| play_id := PInt 7; other_cells := [PStr "Rush"] |}]);
   ("2022play_by_play.csv", [{| play_id := PInt (-1); other_cells := [] |}])].

(** That disk after the pass, and after the pass run again. *)
Definition season_2023_cleaned : files :=
  Eval vm_compute in
    match clean season_2023_disk with
    | Ok fs => fs
    | Raise _ => []
    end.

Definition season_2023_cleaned_twice : files :=
  Eval vm_compute in
    match clean season_2023_cleaned with
    | Ok fs => fs
    | Raise _ => []
    end.

(* ================================================================== *)
(** * Part II. Theorems *)
(* ================================================================== *)

(** ** Outcomes *)

Lemma bind_Ok {A B : Type} (m : outcome A) (k : A -> outcome B) (b : B) :
  bind m k = Ok b -> exists a, m = Ok a /\ k a = Ok b.
Proof.
  destruct m as [a | e]; simpl; intros H.
  - exists a. split; [reflexivity | exact H].
  - discriminate H.
Qed.

(** ** Text: digits, blanks and separators *)

Lemma digit_not_space (c : ascii) : is_digit c = true -> is_space c = false.
Proof.
  destruct c as [[] [] [] [] [] [] [] []]; vm_compute; intros H;
    first [reflexivity | discriminate H].
Qed.

Lemma digit_not_mark (c : ascii) :
  is_digit c = true ->
  Ascii.eqb c ":" = false /\ Ascii.eqb c "-" = false /\ Ascii.eqb c "+" = false.
Proof.
  destruct c as [[] [] [] [] [] [] [] []]; vm_compute; intros H;
    first [discriminate H | repeat split].
Qed.

Lemma drop_space_digits (l : list ascii) :
  forallb is_digit l = true -> drop_space l = l.
Proof.
  destruct l as [| c t]; simpl; [reflexivity |].
  intros H. apply andb_true_iff in H. destruct H as [Hc _].
  rewrite (digit_not_space c Hc). reflexivity.
Qed.

Lemma forallb_rev {A : Type} (f : A -> bool) (l : list A) :
  forallb f l = true -> forallb f (rev l) = true.
Proof.
  rewrite !forallb_forall. intros H x Hx. apply H, in_rev, Hx.
Qed.

Lemma strip_digits (l : list ascii) :
  forallb is_digit l = true -> strip l = l.
Proof.
  intros H. unfold strip.
  rewrite (drop_space_digits l H).
  rewrite (drop_space_digits (rev l) (forallb_rev _ _ H)).
  apply rev_involutive.
Qed.

Lemma int_digits_digits (l : list ascii) :
  forallb is_digit l = true ->
  forall prev acc count,
    prev = true \/ l <> [] ->
    int_digits prev acc count l =
    Some (fold_left (fun a c => a * 10 + digit_value c) l acc,
          (count + List.length l)%nat).
Proof.
  induction l as [| c t IH]; simpl; intros H prev acc count Hne.
  - destruct Hne as [-> | Hne]; [| congruence].
    rewrite Nat.add_0_r. reflexivity.
  - apply andb_true_iff in H. destruct H as [Hc Ht].
    rewrite Hc. rewrite (IH Ht true _ _ (or_introl eq_refl)).
    f_equal. f_equal. lia.
Qed.

Lemma all_digits_inv (s : string) :
  all_digits s = true ->
  forallb is_digit (list_ascii_of_string s) = true /\
  exists c t, list_ascii_of_string s = c :: t /\ is_digit c = true.
Proof.
  unfold all_digits. intros H. apply andb_true_iff in H. destruct H as [Hne Hd].
  split; [exact Hd |].
  destruct s as [| c t]; [discriminate Hne |].
  simpl in Hd |- *. apply andb_true_iff in Hd.
  exists c, (list_ascii_of_string t). split; [reflexivity | apply Hd].
Qed.

Lemma length_list_ascii (s : string) :
  List.length (list_ascii_of_string s) = String.length s.
Proof. induction s as [| c t IH]; simpl; congruence. Qed.

(** [int] reads a run of digits as the number it writes. *)
Lemma py_int_of_string_digits (s : string) :
  all_digits s = true ->
  (String.length s <= max_str_digits)%nat ->
  py_int_of_string s = Ok (decimal s).
Proof.
  intros H Hlen. destruct (all_digits_inv s H) as [Hd (c & t & Hs & Hc)].
  unfold py_int_of_string, decimal.
  rewrite (strip_digits _ Hd). rewrite Hs.
  destruct (digit_not_mark c Hc) as (_ & Hm & Hp). rewrite Hm, Hp.
  rewrite <- Hs.
  rewrite (int_digits_digits _ Hd false 0 0%nat).
  - simpl Nat.add. rewrite length_list_ascii.
    destruct (Nat.ltb_spec max_str_digits (String.length s)); [lia | reflexivity].
  - right. rewrite Hs. discriminate.
Qed.

Lemma split_no_colon (s : string) :
  no_colon s = true -> split ":" s = [s].
Proof.
  unfold no_colon. induction s as [| c t IH]; simpl; [reflexivity |].
  intros H. apply andb_true_iff in H. destruct H as [Hc Ht].
  apply negb_true_iff in Hc. rewrite Hc, (IH Ht). reflexivity.
Qed.

Lemma split_clock_display (minutes seconds : string) :
  no_colon minutes = true -> no_colon seconds = true ->
  split ":" (clock_display minutes seconds) = [minutes; seconds].
Proof.
  intros Hm Hs. unfold clock_display, no_colon in *.
  induction minutes as [| c t IH]; simpl.
  - rewrite (split_no_colon seconds Hs). reflexivity.
  - simpl in Hm. apply andb_true_iff in Hm. destruct Hm as [Hc Ht].
    apply negb_true_iff in Hc. rewrite Hc.
    specialize (IH Ht). simpl in IH. rewrite IH. reflexivity.
Qed.

Lemma all_digits_no_colon (s : string) :
  all_digits s = true -> no_colon s = true.
Proof.
  intros H. apply all_digits_inv in H. destruct H as [H _].
  unfold no_colon. rewrite forallb_forall in H |- *.
  intros c Hc. destruct (digit_not_mark c (H c Hc)) as (-> & _). reflexivity.
Qed.

(** Every failure of [int] and of the unpacking is a [ValueError]. *)
Lemma py_int_of_string_raises (s : string) (e : exc) :
  py_int_of_string s = Raise e -> e = ValueError.
Proof.
  unfold py_int_of_string.
  destruct (match strip (list_ascii_of_string s) with
            | [] => _ | _ :: _ => _ end) as [neg ds].
  destruct (int_digits false 0 0 ds) as [[v n] |]; [| congruence].
  destruct (max_str_digits <? n)%nat; congruence.
Qed.

Lemma unpack_two_ints_raises (parts : list string) (e : exc) :
  unpack_two_ints parts = Raise e -> e = ValueError.
Proof.
  unfold unpack_two_ints.
  destruct parts as [| a [| b [| c rest]]]; try congruence.
  destruct (py_int_of_string a) eqn:Ha; simpl.
  - destruct (py_int_of_string b) eqn:Hb; simpl; [discriminate |].
    intros H. injection H as <-. apply (py_int_of_string_raises b), Hb.
  - intros H. injection H as <-. apply (py_int_of_string_raises a), Ha.
Qed.

(** ** Clock Converter *)

Lemma convert_clock_two_ints (minutes seconds : string) (m sec q : Z) :
  no_colon minutes = true -> no_colon seconds = true ->
  py_int_of_string minutes = Ok m ->
  py_int_of_string seconds = Ok sec ->
  convert_clock_to_seconds (PStr (clock_display minutes seconds)) (PInt q) =
  Ok (PInt (m * 60 + sec + (if q <=? 4 then 15 * 60 * (4 - q) else 0))).
Proof.
  intros Hm Hs Im Is. unfold convert_clock_to_seconds. simpl py_split_colon.
  cbv beta iota delta [bind].
  rewrite (split_clock_display minutes seconds Hm Hs).
  unfold unpack_two_ints. rewrite Im, Is.
  cbv beta iota delta [bind py_le_int as_int py_int_sub py_mul_int py_int_add].
  destruct (q <=? 4); do 2 f_equal; lia.
Qed.

Lemma convert_clock_digits (minutes seconds : string) (q : Z) :
  all_digits minutes = true -> all_digits seconds = true ->
  (String.length minutes <= max_str_digits)%nat ->
  (String.length seconds <= max_str_digits)%nat ->
  convert_clock_to_seconds (PStr (clock_display minutes seconds)) (PInt q) =
  Ok (PInt (decimal minutes * 60 + decimal seconds +
            (if q <=? 4 then 15 * 60 * (4 - q) else 0))).
Proof.
  intros Hm Hs Lm Ls.
  apply convert_clock_two_ints.
  - exact (all_digits_no_colon _ Hm).
  - exact (all_digits_no_colon _ Hs).
  - exact (py_int_of_string_digits _ Hm Lm).
  - exact (py_int_of_string_digits _ Hs Ls).
Qed.

(** C5.  For a clock display of two texts around one colon that [int]
    reads as [m] and [sec], and a quarter number [q],
    [convert_clock_to_seconds] returns m * 60 + sec, plus
    15 * 60 * (4 - q) when [q <= 4] and plus nothing otherwise; on two
    runs of decimal digits [m] and [sec] are the numbers the digits
    write.  It returns 3600 for ("15:00", 1), 0 for ("00:00", 4) and 600
    for ("10:00", 5); and it returns [None] when the clock is [None],
    whatever the quarter. *)
Theorem convert_clock_to_seconds_spec :
  (forall (minutes seconds : string) (m sec q : Z),
      no_colon minutes = true -> no_colon seconds = true ->
      py_int_of_string minutes = Ok m ->
      py_int_of_string seconds = Ok sec ->
      convert_clock_to_seconds (PStr (clock_display minutes seconds)) (PInt q) =
      Ok (PInt (m * 60 + sec + (if q <=? 4 then 15 * 60 * (4 - q) else 0)))) /\
  (forall (minutes seconds : string) (q : Z),
      all_digits minutes = true -> all_digits seconds = true ->
      (String.length minutes <= max_str_digits)%nat ->
      (String.length seconds <= max_str_digits)%nat ->
      convert_clock_to_seconds (PStr (clock_display minutes seconds)) (PInt q) =
      Ok (PInt (decimal minutes * 60 + decimal seconds +
                (if q <=? 4 then 15 * 60 * (4 - q) else 0)))) /\
  convert_clock_to_seconds (PStr "15:00") (PInt 1) = Ok (PInt 3600) /\
  convert_clock_to_seconds (PStr "00:00") (PInt 4) = Ok (PInt 0) /\
  convert_clock_to_seconds (PStr "10:00") (PInt 5) = Ok (PInt 600) /\
  (forall quarter : pyval, convert_clock_to_seconds PNone quarter = Ok PNone).
Proof.
  split; [exact convert_clock_two_ints |].
  split; [exact convert_clock_digits |].
  repeat split.
Qed.

(** The formula of C5 at the display "07:45" in the second quarter. *)
Lemma convert_clock_to_seconds_spec_witness :
  all_digits "07" = true /\ all_digits "45" = true /\
  convert_clock_to_seconds (PStr "07:45") (PInt 2) = Ok (PInt (7 * 60 + 45 + 1800)).
Proof.
  split; [reflexivity |]. split; [reflexivity |].
  exact (proj1 (proj2 convert_clock_to_seconds_spec) "07" "45" 2 eq_refl eq_refl
           ltac:(vm_compute; lia) ltac:(vm_compute; lia)).
Defined.

(** C10.  With a clock that is a string and the quarter [None] the
    converter raises: [ValueError] when the string is not two integers
    around a colon, [TypeError] at [quarter <= 4] when it is.  It returns
    without raising when the clock is [None], and, on a clock display,
    when the quarter is a number. *)
Theorem convert_clock_to_seconds_quarter_absent :
  (forall clock : string,
      convert_clock_to_seconds (PStr clock) PNone = Raise ValueError \/
      convert_clock_to_seconds (PStr clock) PNone = Raise TypeError) /\
  (forall quarter : pyval, convert_clock_to_seconds PNone quarter = Ok PNone) /\
  (forall q : Z, exists n : Z,
      convert_clock_to_seconds (PStr "10:00") (PInt q) = Ok (PInt n)).
Proof.
  split; [| split].
  - intros clock. unfold convert_clock_to_seconds. simpl py_split_colon.
    cbv beta iota delta [bind].
    destruct (unpack_two_ints (split ":" clock)) as [[m s] | e] eqn:Hu.
    + right. reflexivity.
    + left. rewrite (unpack_two_ints_raises _ _ Hu). reflexivity.
  - reflexivity.
  - intros q. eexists.
    exact (convert_clock_digits "10" "00" q eq_refl eq_refl
             ltac:(vm_compute; lia) ltac:(vm_compute; lia)).
Qed.

(** ** Timeout Tracker *)

(** Case analysis on everything a hypothesis about one call of
    [timeout_decrementor] branches on. *)
Ltac tracker_cases H :=
  unfold timeout_decrementor, bind in H;
  repeat match goal with
         | H' : context [match ?x with _ => _ end] |- _ => destruct x eqn:?
         end;
  repeat match goal with
         | H' : Ok _ = Ok _ |- _ => injection H' as H'
         | H' : Raise _ = Ok _ |- _ => discriminate H'
         | H' : Ok _ = Raise _ |- _ => discriminate H'
         end;
  subst.

Lemma timeout_decrementor_le_3 (row : Series) (df s : Z * Z) (location : pyval) :
  timeout_decrementor row df location = Ok s ->
  at_most 3 df -> at_most 3 s.
Proof.
  unfold at_most. intros H [Hh Ha].
  tracker_cases H; simpl; lia.
Qed.

Lemma timeout_decrementor_le_1 (row : Series) (df s : Z * Z) (location : pyval) :
  timeout_decrementor row df location = Ok s ->
  is_half_reset row = false ->
  at_most 1 df -> at_most 1 s.
Proof.
  unfold at_most, is_half_reset. intros H Hr [Hh Ha].
  tracker_cases H; simpl; try lia; congruence.
Qed.

Lemma timeout_decrementor_ot (row : Series) (df s : Z * Z) (location : pyval) :
  timeout_decrementor row df location = Ok s ->
  is_ot_reset row = true ->
  at_most 1 s.
Proof.
  unfold at_most, is_ot_reset. intros H Hr.
  tracker_cases H; simpl; try lia; congruence.
Qed.

Lemma timeout_decrementor_closed_form (row : Series) (s : Z * Z) (location : pyval)
    (g ch ca : Z) :
  timeout_decrementor row (g - ch, g - ca) location = Ok s ->
  let g' := if is_ot_reset row then 1 else if is_half_reset row then 3 else g in
  s = (g' - (if is_ot_reset row then charges location true row
             else if is_half_reset row then 0
             else ch + charges location true row),
       g' - (if is_ot_reset row then charges location false row
             else if is_half_reset row then 0
             else ca + charges location false row)).
Proof.
  intros H. unfold charges, charge, is_timeout_row, is_ot_reset, is_half_reset.
  tracker_cases H;
    repeat match goal with
           | |- context [match ?x with _ => _ end] => destruct x eqn:?
           end;
    repeat match goal with
           | H' : context [match ?x with _ => _ end] |- _ => destruct x eqn:?
           end;
    repeat match goal with
           | b : bool |- _ => destruct b
           end;
    simpl in *; try congruence; f_equal; lia.
Qed.

Lemma apply_timeouts_closed_form (location : pyval) (rows : list Series) :
  forall (g ch ca : Z) (out : list (Z * Z)),
    apply_timeouts location rows (g - ch, g - ca) = Ok out ->
    forall pre r post,
      rows = (pre ++ r :: post)%list ->
      nth_error out (List.length pre) =
      Some (granted g (pre ++ [r]) - charged location true ch (pre ++ [r]),
            granted g (pre ++ [r]) - charged location false ca (pre ++ [r])).
Proof.
  induction rows as [| row rest IH]; intros g ch ca out H pre r post Hsplit.
  - destruct pre; discriminate Hsplit.
  - simpl in H. apply bind_Ok in H. destruct H as (s & Hs & H).
    apply bind_Ok in H. destruct H as (out' & Hrest & H).
    injection H as <-.
    pose proof (timeout_decrementor_closed_form _ _ _ _ _ _ Hs) as Hform.
    cbv zeta in Hform.
    destruct pre as [| p pre]; simpl in Hsplit; injection Hsplit as <- ->.
    + simpl. f_equal. exact Hform.
    + simpl. rewrite Hform in Hrest.
      exact (IH _ _ _ _ Hrest pre r post eq_refl).
Qed.

Lemma apply_timeouts_length (location : pyval) (rows : list Series) :
  forall (df : Z * Z) (out : list (Z * Z)),
    apply_timeouts location rows df = Ok out ->
    List.length out = List.length rows.
Proof.
  induction rows as [| row rest IH]; simpl; intros df out H.
  - injection H as <-. reflexivity.
  - apply bind_Ok in H. destruct H as (s & _ & H).
    apply bind_Ok in H. destruct H as (out' & Hrest & H).
    injection H as <-. simpl. f_equal. exact (IH _ _ Hrest).
Qed.

Lemma apply_timeouts_le_3 (location : pyval) (rows : list Series) :
  forall (df : Z * Z) (out : list (Z * Z)),
    apply_timeouts location rows df = Ok out ->
    at_most 3 df -> Forall (at_most 3) out.
Proof.
  induction rows as [| row rest IH]; simpl; intros df out H Hdf.
  - injection H as <-. constructor.
  - apply bind_Ok in H. destruct H as (s & Hs & H).
    apply bind_Ok in H. destruct H as (out' & Hrest & H).
    injection H as <-.
    pose proof (timeout_decrementor_le_3 _ _ _ _ Hs Hdf) as Hle.
    constructor; [exact Hle | exact (IH _ _ Hrest Hle)].
Qed.

Lemma apply_timeouts_le_1 (location : pyval) (rows : list Series) :
  forall (df : Z * Z) (out : list (Z * Z)),
    apply_timeouts location rows df = Ok out ->
    forallb (fun x => negb (is_half_reset x)) rows = true ->
    at_most 1 df -> Forall (at_most 1) out.
Proof.
  induction rows as [| row rest IH]; simpl; intros df out H Hno Hdf.
  - injection H as <-. constructor.
  - apply andb_true_iff in Hno. destruct Hno as [Hrow Hno].
    apply negb_true_iff in Hrow.
    apply bind_Ok in H. destruct H as (s & Hs & H).
    apply bind_Ok in H. destruct H as (out' & Hrest & H).
    injection H as <-.
    pose proof (timeout_decrementor_le_1 _ _ _ _ Hs Hrow Hdf) as Hle.
    constructor; [exact Hle | exact (IH _ _ Hrest Hno Hle)].
Qed.

(** The rows after a prefix are processed from the state the prefix
    leaves, and their pairs are the output past the prefix. *)
Lemma apply_timeouts_skip (location : pyval) (pre rest : list Series) :
  forall (df : Z * Z) (out : list (Z * Z)),
    apply_timeouts location (pre ++ rest)%list df = Ok out ->
    exists df', apply_timeouts location rest df' = Ok (skipn (List.length pre) out).
Proof.
  induction pre as [| row pre IH]; simpl; intros df out H.
  - exists df. exact H.
  - apply bind_Ok in H. destruct H as (s & _ & H).
    apply bind_Ok in H. destruct H as (out' & Hrest & H).
    injection H as <-. simpl. exact (IH _ _ Hrest).
Qed.

(** C1, amended.  For every row sequence the tracker processes from the
    state (3, 3), one pair is emitted per row; no emitted counter exceeds
    3; from an overtime reset row up to the next start-of-second-half row
    no emitted counter exceeds 1; and each emitted counter is what the
    last reset boundary granted (3 at the start and at the start of the
    second half, 1 at an overtime reset) less the timeouts charged to
    that side since.  So the emitted counters are all non-negative
    exactly when no side is ever charged more than it was granted; past
    that, nothing bounds them from below.  The count of the charges is
    stated for a home location in ASCII, on which [upper] is
    [str.upper]. *)
Theorem timeouts_never_exceed (location : pyval) (rows : list Series)
    (out : list (Z * Z)) :
  apply_timeouts location rows initial_timeouts = Ok out ->
  List.length out = List.length rows /\
  Forall (at_most 3) out /\
  (forall (pre : list Series) (r : Series) (post : list Series),
      rows = (pre ++ r :: post)%list ->
      is_ot_reset r = true ->
      forallb (fun x => negb (is_half_reset x)) post = true ->
      Forall (at_most 1) (skipn (List.length pre) out)) /\
  (ascii_location location = true ->
   (forall (pre : list Series) (r : Series) (post : list Series),
       rows = (pre ++ r :: post)%list ->
       nth_error out (List.length pre) =
       Some (granted 3 (pre ++ [r]) - charged location true 0 (pre ++ [r]),
             granted 3 (pre ++ [r]) - charged location false 0 (pre ++ [r]))) /\
   (within_grant location rows <->
    Forall (fun s => 0 <= fst s /\ 0 <= snd s) out)).
Proof.
  intros H.
  assert (Hform : forall pre r post,
             rows = (pre ++ r :: post)%list ->
             nth_error out (List.length pre) =
             Some (granted 3 (pre ++ [r]) - charged location true 0 (pre ++ [r]),
                   granted 3 (pre ++ [r]) - charged location false 0 (pre ++ [r]))).
  { apply (apply_timeouts_closed_form location rows 3 0 0 out). exact H. }
  pose proof (apply_timeouts_length _ _ _ _ H) as Hlen.
  split; [exact Hlen |].
  split; [| split; [| intros _; split; [exact Hform |]]].
  - apply (apply_timeouts_le_3 _ _ _ _ H). unfold at_most, initial_timeouts. simpl. lia.
  - intros pre r post -> Hot Hno.
    destruct (apply_timeouts_skip _ _ _ _ _ H) as (df' & Hskip).
    simpl in Hskip.
    apply bind_Ok in Hskip. destruct Hskip as (s & Hs & Hskip).
    apply bind_Ok in Hskip. destruct Hskip as (out' & Hrest & Hskip).
    injection Hskip as Hskip. rewrite <- Hskip.
    pose proof (timeout_decrementor_ot _ _ _ _ Hs Hot) as Hle.
    constructor; [exact Hle | exact (apply_timeouts_le_1 _ _ _ _ Hrest Hno Hle)].
  - unfold within_grant. split.
    + intros Hgrant. apply Forall_forall. intros s Hin.
      apply In_nth_error in Hin. destruct Hin as [k Hk].
      assert (k < List.length rows)%nat as Hlt
        by (rewrite <- Hlen; apply nth_error_Some; congruence).
      destruct (nth_error rows k) as [r |] eqn:Hr;
        [| apply nth_error_None in Hr; lia].
      apply nth_error_split in Hr. destruct Hr as (pre & post & Hsplit & Hpre).
      pose proof (Hform pre r post Hsplit) as Hs. rewrite Hpre, Hk in Hs.
      injection Hs as ->. destruct (Hgrant pre r post Hsplit). simpl. lia.
    + intros Hall pre r post Hsplit.
      pose proof (Hform pre r post Hsplit) as Hs.
      apply nth_error_In in Hs.
      pose proof (proj1 (Forall_forall _ _) Hall _ Hs) as Hnn. simpl in Hnn. lia.
Qed.

Lemma timeouts_never_exceed_witness :
  apply_timeouts (PStr "Alabama") [alabama_timeout; overtime_timeout] initial_timeouts =
  Ok [(2, 3); (0, 1)] /\
  Forall (at_most 3) [(2, 3); (0, 1)].
Proof.
  split; [reflexivity |].
  exact (proj1 (proj2 (timeouts_never_exceed (PStr "Alabama")
                         [alabama_timeout; overtime_timeout] [(2, 3); (0, 1)] eq_refl))).
Defined.

(** C1 as stated fails: four Timeout rows that name the home location,
    with no reset between them, leave the home counter at -1. *)
Lemma fourth_timeout_goes_negative :
  apply_timeouts (PStr "Alabama")
    [alabama_timeout; alabama_timeout; alabama_timeout; alabama_timeout]
    initial_timeouts =
  Ok [(2, 3); (1, 3); (0, 3); (-1, 3)].
Proof. reflexivity. Qed.

(** On rows whose description and half label are texts, with a location
    that is a text, the tracker returns a pair for every row. *)
Lemma apply_timeouts_returns (location : string) (rows : list Series) :
  Forall (fun r => (exists d, description r = PStr d) /\ (exists h, half r = PStr h)) rows ->
  forall df : Z * Z, exists out, apply_timeouts (PStr location) rows df = Ok out.
Proof.
  induction 1 as [| row rest [[d Hd] [h Hh]] _ IH]; intros df; simpl.
  - eexists. reflexivity.
  - assert (exists s, timeout_decrementor row df (PStr location) = Ok s) as [s Hs].
    { unfold timeout_decrementor, names_location, names_location_ot.
      rewrite Hd, Hh. simpl.
      destruct (py_eq (play_type row) (PStr "Timeout"));
        destruct (py_eq (game_seconds_remaining row) (PInt 1800));
        destruct (py_eq (game_seconds_remaining row) (PInt 0)); simpl;
        repeat match goal with
               | |- context [if ?b then _ else _] => destruct b; simpl
               end; eexists; reflexivity. }
    rewrite Hs. simpl. destruct (IH s) as [out Hout]. rewrite Hout. simpl.
    eexists. reflexivity.
Qed.

(** C4.  On a row whose elapsed seconds are 1800 the function returns
    (3, 3), whatever the state before and whatever the play type, a
    Timeout with or without a description included; and on such a row no
    call returns anything else. *)
Theorem half_boundary_resets_to_three :
  (forall (location : string) (desc : option string) (type label : pyval) (df : Z * Z),
      timeout_decrementor
        {| play_type := type; description := of_text desc;
           game_seconds_remaining := PInt 1800; half := label |}
        df (PStr location) = Ok (3, 3)) /\
  (forall (row : Series) (df s : Z * Z) (location : pyval),
      is_half_reset row = true ->
      timeout_decrementor row df location = Ok s -> s = (3, 3)).
Proof.
  split.
  - intros location desc type label df.
    unfold timeout_decrementor, names_location. simpl.
    destruct (py_eq type (PStr "Timeout")); destruct desc as [d |]; simpl;
      try reflexivity.
    destruct (str_contains location d); simpl; [reflexivity |].
    destruct (str_contains (upper location) d); reflexivity.
  - unfold is_half_reset. intros [type desc seconds label] df s location Hr H.
    destruct seconds; simpl in Hr; try discriminate Hr.
    + destruct b; apply Z.eqb_eq in Hr; discriminate Hr.
    + apply Z.eqb_eq in Hr. subst n.
      tracker_cases H; simpl in *; congruence.
Qed.

(** C3 as stated fails: "Timeout alabama" holds the home location
    "Alabama" up to letter case, and the away counter is the one that
    goes down. *)
Lemma lowercase_location_charges_away :
  contains_ignoring_case "Alabama" "Timeout alabama" = true /\
  timeout_decrementor
    {| play_type := PStr "Timeout"; description := PStr "Timeout alabama";
       game_seconds_remaining := PInt 2000; half := PStr "Half1" |}
    (3, 3) (PStr "Alabama") = Ok (3, 2).
Proof. split; reflexivity. Qed.

(** C3, amended.  On a Timeout row with a description, away from the
    reset boundaries, the home counter goes down by 1 when the
    description holds the home location as it is written or fully
    upper-cased; on every other description the away counter goes down
    by 1.  Stated for a home location in ASCII, on which [upper] is
    [str.upper]. *)
Theorem timeout_charges_named_home_else_away
    (location desc label : string) (seconds : pyval) (df : Z * Z) :
  let row := {| play_type := PStr "Timeout"; description := PStr desc;
                game_seconds_remaining := seconds; half := PStr label |} in
  is_ascii location = true ->
  is_half_reset row = false ->
  is_ot_reset row = false ->
  timeout_decrementor row df (PStr location) =
  Ok (if names_home location desc then (fst df - 1, snd df) else (fst df, snd df - 1)).
Proof.
  intros row. unfold row, is_half_reset, is_ot_reset, timeout_decrementor,
    names_location, names_home. simpl.
  intros _ Hr Hot. rewrite Hr.
  destruct (py_eq seconds (PInt 0)); simpl in Hot |- *.
  - rewrite Hot.
    destruct (str_contains location desc); simpl; [reflexivity |].
    destruct (str_contains (upper location) desc); reflexivity.
  - destruct (str_contains location desc); simpl; [reflexivity |].
    destruct (str_contains (upper location) desc); reflexivity.
Qed.

Lemma timeout_charges_named_home_else_away_witness :
  timeout_decrementor
    {| play_type := PStr "Timeout"; description := PStr "Timeout ALABAMA";
       game_seconds_remaining := PInt 2000; half := PStr "Half1" |}
    (3, 3) (PStr "Alabama") = Ok (2, 3).
Proof.
  exact (timeout_charges_named_home_else_away
           "Alabama" "Timeout ALABAMA" "Half1" (PInt 2000) (3, 3)
           eq_refl eq_refl eq_refl).
Defined.

(** On an overtime reset row with a description, both counters restart
    at 1 and a Timeout is charged to the restarted pair (home location in
    ASCII). *)
Lemma overtime_reset_with_description
    (location desc label : string) (type : pyval) (df : Z * Z) :
  is_ascii location = true ->
  str_contains "OT" label = true ->
  timeout_decrementor
    {| play_type := type; description := PStr desc;
       game_seconds_remaining := PInt 0; half := PStr label |}
    df (PStr location) =
  Ok (if py_eq type (PStr "Timeout")
      then (if names_home location desc then (0, 1) else (1, 0))
      else (1, 1)).
Proof.
  intros _ Hot. unfold timeout_decrementor, names_location, names_location_ot, names_home.
  simpl. rewrite Hot.
  destruct (py_eq type (PStr "Timeout")); simpl; [| reflexivity].
  destruct (str_contains location desc); simpl; [reflexivity |].
  destruct (str_contains (upper location) desc); reflexivity.
Qed.

(** C6, at the input where the code departs from it: a Timeout row at
    second 0 of an overtime period whose description is [None].  Line 158
    evaluates [location in row['description']] before its [is not None]
    test, and the call raises [TypeError] instead of returning a pair. *)
Theorem overtime_timeout_without_description_raises :
  timeout_decrementor
    {| play_type := PStr "Timeout"; description := PNone;
       game_seconds_remaining := PInt 0; half := PStr "OT5" |}
    (3, 3) (PStr "Alabama") = Raise TypeError.
Proof. reflexivity. Qed.

(** The same row reached through the builder: the payload of
    [overtime_game] makes [get_play_by_play] raise [TypeError]. *)
Lemma overtime_game_raises :
  get_play_by_play overtime_game = Raise TypeError.
Proof. reflexivity. Qed.

(** ** Roster Resolver *)

Lemma run_assignments_keeps (fields : HomeAway -> list pyval) (l : list assignment) :
  Forall (fun a => forall v r, fields (fst a v r) = fields r) l ->
  forall st, fields (fst (run_assignments l st)) = fields st.
Proof.
  induction 1 as [| [set [v | e]] t Hset _ IH]; intros st; simpl; try reflexivity.
  rewrite IH. apply Hset.
Qed.

Lemma away_branch_keeps_home (c : pyval) : Forall keeps_home (away_branch c).
Proof. repeat constructor. Qed.

Lemma home_branch_keeps_away (c : pyval) : Forall keeps_away (home_branch c).
Proof. repeat constructor. Qed.

Lemma iteration_keeps_home (_json : pyval) (i : nat) (st : HomeAway) :
  is_home _json i <> Ok true ->
  home_fields (fst (iteration _json i st)) = home_fields st.
Proof.
  unfold iteration. intros Hno.
  destruct (is_home _json i) as [[] | e]; try reflexivity; [congruence |].
  destruct (py_index _json i) as [c | e]; [| reflexivity].
  apply (run_assignments_keeps home_fields), away_branch_keeps_home.
Qed.

Lemma iteration_keeps_away (_json : pyval) (i : nat) (st : HomeAway) :
  is_home _json i <> Ok false ->
  away_fields (fst (iteration _json i st)) = away_fields st.
Proof.
  unfold iteration. intros Hno.
  destruct (is_home _json i) as [[] | e]; try reflexivity; [| congruence].
  destruct (py_index _json i) as [c | e]; [| reflexivity].
  apply (run_assignments_keeps away_fields), home_branch_keeps_away.
Qed.

Lemma loop_keeps (fields : HomeAway -> list pyval) (_json : pyval) (range : list nat) :
  (forall i st, In i range -> fields (fst (iteration _json i st)) = fields st) ->
  forall st, fields (fst (loop _json range st)) = fields st.
Proof.
  induction range as [| i rest IH]; intros Hkeep st; simpl; [reflexivity |].
  pose proof (Hkeep i st (or_introl eq_refl)) as Hi.
  destruct (iteration _json i st) as [st' [e |]]; simpl in Hi |- *; [exact Hi |].
  rewrite IH; [exact Hi |].
  intros j st0 Hj. apply Hkeep. right. exact Hj.
Qed.

Lemma get_home_away_returns (_json : pyval) :
  exists r : HomeAway, get_home_away _json = Ok r.
Proof.
  unfold get_home_away.
  destruct (loop _json [0; 1]%nat defaults) as [st [e |]]; exists st;
    [destruct e |]; reflexivity.
Qed.

(** C2, amended.  [get_home_away] never fails: for every argument it
    returns its twelve values.  When neither of the two entries it reads
    carries [homeAway == "home"], the six home values are the [None] they
    started as; when neither takes the away branch, the six away values
    are. *)
Theorem get_home_away_always_returns (_json : pyval) :
  exists r : HomeAway,
    get_home_away _json = Ok r /\
    ((forall i, In i [0; 1]%nat -> is_home _json i <> Ok true) ->
     home_fields r = repeat PNone 6) /\
    ((forall i, In i [0; 1]%nat -> is_home _json i <> Ok false) ->
     away_fields r = repeat PNone 6).
Proof.
  unfold get_home_away.
  pose proof (loop_keeps home_fields _json [0; 1]%nat) as Hhome.
  pose proof (loop_keeps away_fields _json [0; 1]%nat) as Haway.
  destruct (loop _json [0; 1]%nat defaults) as [st raised] eqn:Hloop.
  exists st. split.
  - destruct raised as [e |]; [destruct e |]; reflexivity.
  - split; intros Hno.
    + specialize (Hhome (fun i st0 Hi => iteration_keeps_home _json i st0 (Hno i Hi)) defaults).
      rewrite Hloop in Hhome. exact Hhome.
    + specialize (Haway (fun i st0 Hi => iteration_keeps_away _json i st0 (Hno i Hi)) defaults).
      rewrite Hloop in Haway. exact Haway.
Qed.

(** C2 as stated fails: with the [homeAway] key missing on both entries
    the resolver returns, the home values [None] and the away values
    those of the second entry; and the builder emits the rows of such a
    game, with the home id [None]. *)
Lemma untagged_competitors_resolve :
  get_home_away untagged_competitors =
  Ok {| _home_team := PNone; _hid := PNone;
        _away_team := PStr "AUB"; _aid := PStr "2";
        h_color := PNone; a_color := PStr "9e1b32";
        h_rank := PNone; a_rank := PNaN;
        h_logo := PNone; a_logo := PStr "logo.png";
        h_location := PNone; a_location := PStr "Auburn" |} /\
  exists df,
    get_play_by_play untagged_game = Ok df /\
    cell df "play_id" 0 = Some (PInt 1) /\
    cell df "home_id" 0 = Some PNone /\
    cell df "away_id" 0 = Some (PStr "2").
Proof. split; [reflexivity |]. eexists. repeat split. Qed.

(** ** Play Record Builder *)

Lemma nth_error_broadcast (v x : pyval) (n i : nat) :
  nth_error (broadcast v n) i = Some x -> x = v.
Proof.
  unfold broadcast. intros H. apply nth_error_In in H.
  exact (repeat_spec _ _ _ H).
Qed.

(** What a frame that has a [posteam] column holds in the columns the
    defending team is computed from. *)
Lemma fill_frame_columns (roster : option HomeAway)
    (header : pyval * pyval * pyval * pyval) (plays : list play)
    (df : frame) (raised : option exc) :
  fill_frame roster header plays = (df, raised) ->
  assoc "posteam" df = None \/
  exists ha,
    roster = Some ha /\
    assoc "posteam" df = Some (map pl_posteam plays) /\
    assoc "home_id" df = Some (broadcast (_hid ha) (List.length plays)) /\
    assoc "away_id" df = Some (broadcast (_aid ha) (List.length plays)) /\
    assoc "defteam" df =
      Some (map (fun p => defteam_of p (_hid ha) (_aid ha)) (map pl_posteam plays)) /\
    assoc "posteam_type" df =
      Some (map (fun p => posteam_type_of p (_hid ha) (_aid ha)) (map pl_posteam plays)).
Proof.
  unfold fill_frame. destruct header as [[[game_id year] season_type] week].
  destruct roster as [ha |].
  - destruct (seconds_column plays) as [seconds | e].
    + destruct (apply_timeouts _ _ _) as [timeouts | e];
        intros H; injection H as <- <-; right; exists ha; repeat split.
    + intros H; injection H as <- <-; right; exists ha; repeat split.
  - intros H; injection H as <- <-. left. reflexivity.
Qed.

Lemma get_play_by_play_frame (json : pyval) (df : frame) :
  get_play_by_play json = Ok df ->
  df = [] \/
  exists roster header plays raised,
    fill_frame roster header plays = (df, raised).
Proof.
  unfold get_play_by_play, try_block. intros H.
  apply bind_Ok in H. destruct H as (roster & _ & H).
  destruct (extract_plays json) as [plays | e].
  - destruct (header_fields json) as [header | e'].
    + destruct (fill_frame roster header plays) as [game_df raised] eqn:Hfill.
      right. exists roster, header, plays, raised.
      destruct raised as [[] |]; congruence.
    + left. destruct e'; congruence.
  - left. destruct e; congruence.
Qed.

(** C7.  In every row of a frame the builder returns, the defending team
    id is the away id when the possessing-team id equals the home id, and
    the home id in every other case; so it is the home id in a row whose
    possession is "neutral". *)
Theorem defteam_is_the_other_side (json : pyval) (df : frame) (i : nat)
    (posteam home_id away_id : pyval) :
  get_play_by_play json = Ok df ->
  cell df "posteam" i = Some posteam ->
  cell df "home_id" i = Some home_id ->
  cell df "away_id" i = Some away_id ->
  cell df "defteam" i = Some (if py_eq posteam home_id then away_id else home_id) /\
  (cell df "posteam_type" i = Some (PStr "neutral") ->
   py_eq posteam home_id = false /\ py_eq posteam away_id = false /\
   cell df "defteam" i = Some home_id).
Proof.
  intros Hrun Hpos Hhome Haway.
  destruct (get_play_by_play_frame json df Hrun) as [-> | (roster & header & plays & raised & Hfill)];
    [discriminate Hpos |].
  destruct (fill_frame_columns _ _ _ _ _ Hfill)
    as [Hnone | (ha & _ & Cpos & Chome & Caway & Cdef & Ctype)].
  { unfold cell in Hpos. rewrite Hnone in Hpos. discriminate Hpos. }
  unfold cell in *.
  rewrite Cpos in Hpos. rewrite Chome in Hhome. rewrite Caway in Haway.
  rewrite Cdef, Ctype.
  apply nth_error_broadcast in Hhome. apply nth_error_broadcast in Haway.
  subst home_id away_id.
  rewrite (nth_error_map (fun p => defteam_of p (_hid ha) (_aid ha))).
  rewrite (nth_error_map (fun p => posteam_type_of p (_hid ha) (_aid ha))).
  rewrite Hpos. simpl. unfold defteam_of, posteam_type_of.
  split; [reflexivity |].
  destruct (py_eq posteam (_hid ha)); [discriminate |].
  destruct (py_eq posteam (_aid ha)); [discriminate |].
  intros _. repeat split.
Qed.

(** C7 on the one row of a game in which a third team has the ball. *)
Lemma defteam_is_the_other_side_witness :
  get_play_by_play kickoff_game = Ok kickoff_frame /\
  cell kickoff_frame "posteam_type" 0 = Some (PStr "neutral") /\
  cell kickoff_frame "defteam" 0 = Some (PStr "333").
Proof.
  split; [reflexivity |]. split; [reflexivity |].
  exact (proj1 (defteam_is_the_other_side kickoff_game kickoff_frame 0
                  (PStr "2579") (PStr "333") (PStr "2")
                  eq_refl eq_refl eq_refl eq_refl)).
Defined.

Lemma lacks_drives_extract (json : pyval) :
  lacks_drives json = true -> extract_plays json = Raise AttributeError.
Proof.
  unfold lacks_drives, extract_plays.
  destruct json as [| | | | | | d]; try discriminate. simpl.
  destruct (assoc "drives" d) as [[] |]; try discriminate; reflexivity.
Qed.

(** The roster lookup passes when the document has no header to look
    into, and when the first competition of the header is an object. *)
Lemma roster_lookup_passes_cases (json : pyval) :
  (exists d, json = PDict d /\ assoc "header" d = None) \/
  (exists c, competition json = Ok (PDict c)) ->
  roster_lookup_passes json = true.
Proof.
  unfold roster_lookup_passes, resolve_roster.
  intros [(d & -> & Hd) | (c & Hc)].
  - unfold competition. simpl. rewrite Hd. reflexivity.
  - rewrite Hc. simpl.
    destruct (get_home_away_returns
                match assoc "competitors" c with Some x => x | None => PNone end)
      as (r & Hr).
    rewrite Hr. reflexivity.
Qed.

Lemma no_drives_lookup_passes (json : pyval) :
  lacks_drives json = true ->
  roster_lookup_passes json = true ->
  get_play_by_play json = Ok [].
Proof.
  intros Hno Hpass. unfold roster_lookup_passes in Hpass.
  unfold get_play_by_play, try_block.
  rewrite (lacks_drives_extract json Hno).
  destruct (resolve_roster json) as [roster | e]; [reflexivity | discriminate Hpass].
Qed.

(** C8.  For every game payload that has no drives the builder returns
    the empty frame.  A game payload has a header whose first
    competition is an object; the same holds of a document with no
    header at all. *)
Theorem no_drives_gives_no_rows (json : pyval) :
  lacks_drives json = true ->
  (exists d, json = PDict d /\ assoc "header" d = None) \/
  (exists c, competition json = Ok (PDict c)) ->
  get_play_by_play json = Ok [].
Proof.
  intros Hno Hshape.
  exact (no_drives_lookup_passes json Hno (roster_lookup_passes_cases json Hshape)).
Qed.

(** When the lookup raises another error, that error leaves the builder. *)
Lemma no_drives_roster_error (json : pyval) :
  roster_lookup_passes json = false ->
  exists e, get_play_by_play json = Raise e /\ e <> AttributeError.
Proof.
  unfold roster_lookup_passes, get_play_by_play. intros Hpass.
  destruct (resolve_roster json) as [roster | e] eqn:Hr; [discriminate Hpass |].
  exists e. split; [reflexivity |].
  intros ->. unfold resolve_roster in Hr.
  destruct (bind (competition json) _) as [r | []]; discriminate Hr.
Qed.

Lemma no_drives_gives_no_rows_witness :
  lacks_drives game_without_drives = true /\
  get_play_by_play game_without_drives = Ok [].
Proof.
  split; [reflexivity |].
  refine (no_drives_gives_no_rows game_without_drives eq_refl _).
  right. eexists. reflexivity.
Defined.

(** Outside that shape: a document whose header names no competitions
    makes the roster lookup of line 193 raise [TypeError], drives or no
    drives. *)
Lemma header_without_competitions_raises :
  lacks_drives header_without_competitions = true /\
  get_play_by_play header_without_competitions = Raise TypeError.
Proof. split; reflexivity. Qed.

(** ** Batch cleanup *)

Lemma assoc_update_same {A : Type} (k : string) (v : A) (d : list (string * A)) :
  assoc k (update k v d) = Some v.
Proof.
  induction d as [| [k' w] t IH]; simpl.
  - rewrite String.eqb_refl. reflexivity.
  - destruct (String.eqb k k') eqn:E; simpl.
    + rewrite String.eqb_refl. reflexivity.
    + rewrite E. exact IH.
Qed.

Lemma assoc_update_other {A : Type} (k k' : string) (v : A) (d : list (string * A)) :
  k <> k' -> assoc k (update k' v d) = assoc k d.
Proof.
  intros Hne. induction d as [| [k0 w] t IH]; simpl.
  - destruct (String.eqb_spec k k'); [contradiction | reflexivity].
  - destruct (String.eqb_spec k' k0) as [-> | Hk0]; simpl.
    + destruct (String.eqb_spec k k0); [contradiction | reflexivity].
    + destruct (String.eqb k k0); [reflexivity | exact IH].
Qed.

Lemma assoc_of_name {A : Type} (k : string) (d : list (string * A)) :
  In k (map fst d) -> exists v, assoc k d = Some v.
Proof.
  induction d as [| [k' w] t IH]; simpl; [contradiction |].
  intros [-> | Hin].
  - rewrite String.eqb_refl. eexists. reflexivity.
  - destruct (String.eqb k k'); [eexists; reflexivity | exact (IH Hin)].
Qed.

Lemma mapM_same_length {A B : Type} (f : A -> outcome B) (l : list A) :
  forall out, mapM f l = Ok out -> List.length out = List.length l.
Proof.
  induction l as [| x t IH]; simpl; intros out H.
  - injection H as <-. reflexivity.
  - apply bind_Ok in H. destruct H as (y & _ & H).
    apply bind_Ok in H. destruct H as (ys & Hys & H).
    injection H as <-. simpl. f_equal. exact (IH _ Hys).
Qed.

Lemma apply_positive_length (rows rows' : list csv_row) :
  apply_positive rows = Ok rows' -> List.length rows' = List.length rows.
Proof. apply mapM_same_length. Qed.








Lemma glob_names (fs : files) (file : string) :
  In file (glob_years_csv fs) -> In file (map fst fs).
Proof. unfold glob_years_csv. intros H. apply filter_In in H. apply H. Qed.



(** A text in the [play_id] column (an id that does not fit 64 bits makes
    the whole column text) stops the pass with a [TypeError]. *)
Lemma clean_text_id_raises :
  clean [("years/2023play_by_play.csv",
          [{| play_id := PStr "99999999999999999999"; other_cells := [] |}])] =
  Raise TypeError.
Proof. reflexivity. Qed.

(* ================================================================== *)
(** * Part III. Further properties of the code *)
(* ================================================================== *)

(** ** Clock Converter: errors and range *)

(** A clock text that does not split at its colons into exactly two
    parts, or an ASCII clock text one of whose parts [int] cannot read,
    raises [ValueError] at line 127, before the quarter is looked at. *)
Theorem convert_clock_malformed (clock : string) (quarter : pyval) :
  List.length (split ":" clock) <> 2%nat \/
  (is_ascii clock = true /\
   exists part e, In part (split ":" clock) /\ py_int_of_string part = Raise e) ->
  convert_clock_to_seconds (PStr clock) quarter = Raise ValueError.
Proof.
  intros H. unfold convert_clock_to_seconds. simpl py_split_colon.
  cbv beta iota delta [bind].
  destruct (unpack_two_ints (split ":" clock)) as [[m sec] | e] eqn:Hu.
  - exfalso. unfold unpack_two_ints in Hu.
    destruct (split ":" clock) as [| a [| b [| c rest]]]; try discriminate Hu.
    apply bind_Ok in Hu. destruct Hu as (m' & Ha & Hu).
    apply bind_Ok in Hu. destruct Hu as (s' & Hb & _).
    destruct H as [H | (_ & part & e & [<- | [<- | []]] & Hp)];
      [apply H; reflexivity | congruence | congruence].
  - rewrite (unpack_two_ints_raises _ _ Hu). reflexivity.
Qed.

Lemma convert_clock_malformed_witness :
  convert_clock_to_seconds (PStr "15.00") PNone = Raise ValueError /\
  convert_clock_to_seconds (PStr "15:0x") (PInt 1) = Raise ValueError.
Proof.
  split.
  - apply convert_clock_malformed. left. vm_compute. discriminate.
  - apply convert_clock_malformed. right. split; [reflexivity |].
    exists "0x", ValueError.
    split; [right; left; reflexivity | reflexivity].
Defined.

Lemma decimal_from_nonneg (l : list ascii) :
  forall acc, 0 <= acc -> 0 <= fold_left (fun a c => a * 10 + digit_value c) l acc.
Proof.
  induction l as [| c t IH]; simpl; intros acc Hacc; [exact Hacc |].
  apply IH. unfold digit_value. lia.
Qed.

Lemma decimal_nonneg (s : string) : 0 <= decimal s.
Proof. unfold decimal. apply decimal_from_nonneg. lia. Qed.

(** In regulation, with at most 15 minutes on the clock, the result lies
    in the window of its quarter: between 900 * (4 - q) and
    900 * (5 - q), hence between 0 and 3600, and a later quarter never
    gives a larger number than an earlier one. *)
Theorem convert_clock_regulation_window (minutes seconds : string) (q : Z) :
  all_digits minutes = true -> all_digits seconds = true ->
  (String.length minutes <= max_str_digits)%nat ->
  (String.length seconds <= max_str_digits)%nat ->
  decimal minutes * 60 + decimal seconds <= 900 ->
  1 <= q <= 4 ->
  exists n,
    convert_clock_to_seconds (PStr (clock_display minutes seconds)) (PInt q) =
    Ok (PInt n) /\
    900 * (4 - q) <= n <= 900 * (5 - q) /\ 0 <= n <= 3600.
Proof.
  intros Hm Hs Lm Ls Hclock Hq.
  rewrite (convert_clock_digits minutes seconds q Hm Hs Lm Ls).
  eexists. split; [reflexivity |].
  pose proof (decimal_nonneg minutes). pose proof (decimal_nonneg seconds).
  destruct (Z.leb_spec q 4); lia.
Qed.

Lemma convert_clock_regulation_window_witness :
  exists n,
    convert_clock_to_seconds (PStr "07:45") (PInt 3) = Ok (PInt n) /\
    900 * (4 - 3) <= n <= 900 * (5 - 3) /\ 0 <= n <= 3600.
Proof.
  exact (convert_clock_regulation_window "07" "45" 3 eq_refl eq_refl
           ltac:(vm_compute; lia) ltac:(vm_compute; lia)
           ltac:(vm_compute; discriminate) ltac:(lia)).
Defined.

(** ** Timeout Tracker: what a row does to the state *)

(** Case analysis on everything the goal branches on. *)
Ltac goal_cases :=
  repeat match goal with
         | |- context [match ?x with _ => _ end] => destruct x eqn:?
         end.

(** A row at a reset boundary forgets the state: what the call returns
    (or raises) there does not depend on the counters it starts from. *)
Theorem reset_row_forgets_state (row : Series) (df df' : Z * Z) (location : pyval) :
  is_half_reset row || is_ot_reset row = true ->
  timeout_decrementor row df location = timeout_decrementor row df' location.
Proof.
  unfold is_half_reset, is_ot_reset, timeout_decrementor. intros H.
  destruct (py_eq (play_type row) (PStr "Timeout") && negb (is_None (description row)));
    [destruct (names_location location (description row)) as [[] | e] |];
    simpl bind;
    destruct (py_eq (game_seconds_remaining row) (PInt 1800));
    destruct (py_eq (game_seconds_remaining row) (PInt 0));
    try reflexivity;
    simpl in H |- *;
    try discriminate H;
    destruct (py_in (PStr "OT") (half row)) as [[] | e']; simpl;
    try reflexivity; discriminate H.
Qed.

Lemma reset_row_forgets_state_witness :
  timeout_decrementor overtime_timeout (3, 0) (PStr "Alabama") =
  timeout_decrementor overtime_timeout (-2, 1) (PStr "Alabama").
Proof. exact (reset_row_forgets_state overtime_timeout _ _ _ eq_refl). Defined.

(** A row away from the reset boundaries that is no Timeout play, or is
    one with no description, leaves both counters as they are. *)
Theorem quiet_row_keeps_state (row : Series) (df : Z * Z) (location : pyval) :
  is_timeout_row row = false \/ description row = PNone ->
  is_half_reset row = false ->
  py_eq (game_seconds_remaining row) (PInt 0) = false \/
  py_in (PStr "OT") (half row) = Ok false ->
  timeout_decrementor row df location = Ok df.
Proof.
  unfold is_timeout_row, is_half_reset, timeout_decrementor.
  intros Hquiet Hhalf Hot.
  assert (py_eq (play_type row) (PStr "Timeout") && negb (is_None (description row)) = false)
    as ->.
  { destruct Hquiet as [-> | ->]; [reflexivity | apply andb_false_r]. }
  simpl bind. rewrite Hhalf.
  destruct Hot as [-> | Hot]; [reflexivity |].
  rewrite Hot. destruct (py_eq (game_seconds_remaining row) (PInt 0)); reflexivity.
Qed.

Lemma quiet_row_keeps_state_witness :
  timeout_decrementor
    {| play_type := PStr "Timeout"; description := PNone;
       game_seconds_remaining := PInt 0; half := PStr "Half2" |}
    (2, 1) PNone = Ok (2, 1).
Proof.
  apply quiet_row_keeps_state; [right; reflexivity | reflexivity | right; reflexivity].
Defined.

(** With a home location that is not a text (the [None] an unresolved
    roster leaves), a Timeout row whose description is a text raises
    [TypeError] at line 146. *)
Theorem timeout_without_home_location_raises
    (row : Series) (df : Z * Z) (location : pyval) (desc : string) :
  is_text location = false ->
  is_timeout_row row = true ->
  description row = PStr desc ->
  timeout_decrementor row df location = Raise TypeError.
Proof.
  unfold is_timeout_row, timeout_decrementor, names_location.
  intros Hloc -> ->. simpl.
  destruct location; try discriminate Hloc; reflexivity.
Qed.

Lemma timeout_without_home_location_raises_witness :
  timeout_decrementor alabama_timeout (3, 3) PNone = Raise TypeError.
Proof.
  exact (timeout_without_home_location_raises alabama_timeout (3, 3) PNone
           "Timeout Alabama" eq_refl eq_refl eq_refl).
Defined.

(** The half label of an integer quarter: "Half1" for 1 and 2, "Half2"
    for 3 and 4, and "OT" followed by the number for every other one;
    so a row at second 0 is an overtime reset exactly when its quarter
    is outside 1..4. *)
Theorem half_label_of_quarter (q : Z) (type desc : pyval) :
  half_of (PInt q) =
  PStr (if (1 <=? q) && (q <=? 2) then "Half1"
        else if (3 <=? q) && (q <=? 4) then "Half2"
        else "OT" ++ str_of_Z q) /\
  is_ot_reset {| play_type := type; description := desc;
                 game_seconds_remaining := PInt 0; half := half_of (PInt q) |} =
  negb ((1 <=? q) && (q <=? 4)).
Proof.
  assert (Hlabel : half_of (PInt q) =
                   PStr (if (1 <=? q) && (q <=? 2) then "Half1"
                         else if (3 <=? q) && (q <=? 4) then "Half2"
                         else "OT" ++ str_of_Z q)).
  { unfold half_of. simpl existsb. rewrite !orb_false_r.
    destruct (Z.eqb_spec q 1) as [-> | H1]; [reflexivity |].
    destruct (Z.eqb_spec q 2) as [-> | H2]; [reflexivity |].
    destruct (Z.eqb_spec q 3) as [-> | H3]; [reflexivity |].
    destruct (Z.eqb_spec q 4) as [-> | H4]; [reflexivity |].
    simpl orb.
    destruct (Z.leb_spec 1 q), (Z.leb_spec q 2), (Z.leb_spec 3 q), (Z.leb_spec q 4);
      simpl; try reflexivity; lia. }
  split; [exact Hlabel |].
  unfold is_ot_reset. simpl half. rewrite Hlabel. simpl.
  destruct (Z.leb_spec 1 q), (Z.leb_spec q 2), (Z.leb_spec 3 q), (Z.leb_spec q 4);
    simpl; try reflexivity; try lia;
    destruct (str_of_Z q); reflexivity.
Qed.

(** ** Roster Resolver: which entry fills which names *)

Ltac invert_binds H :=
  repeat (let x := fresh "x" in
          let Hx := fresh "Hx" in
          apply bind_Ok in H; destruct H as (x & Hx & H)).

Lemma run_home_branch (c : pyval) (v : list pyval) (st : HomeAway) :
  entry_values c = Ok v ->
  exists st',
    run_assignments (home_branch c) st = (st', None) /\
    home_fields st' = v /\ away_fields st' = away_fields st.
Proof.
  unfold entry_values. intros H. invert_binds H. injection H as <-.
  unfold home_branch.
  repeat match goal with Hx : _ = Ok _ |- _ => rewrite Hx; clear Hx end.
  simpl. eexists. repeat split.
Qed.

Lemma run_away_branch (c : pyval) (v : list pyval) (st : HomeAway) :
  entry_values c = Ok v ->
  exists st',
    run_assignments (away_branch c) st = (st', None) /\
    away_fields st' = v /\ home_fields st' = home_fields st.
Proof.
  unfold entry_values. intros H. invert_binds H. injection H as <-.
  unfold away_branch.
  repeat match goal with Hx : _ = Ok _ |- _ => rewrite Hx; clear Hx end.
  simpl. eexists. repeat split.
Qed.

(** Two entries that can be read in full, one of which carries
    [homeAway == "home"]: the six home values are those of that entry
    and the six away values those of the other, whichever comes first. *)
Theorem get_home_away_tagged_pair (_json c0 c1 : pyval) (v0 v1 : list pyval) (b : bool) :
  py_index _json 0 = Ok c0 -> py_index _json 1 = Ok c1 ->
  is_home _json 0 = Ok b -> is_home _json 1 = Ok (negb b) ->
  entry_values c0 = Ok v0 -> entry_values c1 = Ok v1 ->
  exists r,
    get_home_away _json = Ok r /\
    home_fields r = (if b then v0 else v1) /\
    away_fields r = (if b then v1 else v0).
Proof.
  intros I0 I1 T0 T1 V0 V1. unfold get_home_away, loop, iteration.
  rewrite T0, I0, T1, I1.
  destruct b; simpl negb; cbv iota.
  - destruct (run_home_branch c0 v0 defaults V0) as (st0 & -> & Hh0 & Ha0).
    destruct (run_away_branch c1 v1 st0 V1) as (st1 & -> & Ha1 & Hh1).
    exists st1. repeat split; congruence.
  - destruct (run_away_branch c0 v0 defaults V0) as (st0 & -> & Ha0 & Hh0).
    destruct (run_home_branch c1 v1 st0 V1) as (st1 & -> & Hh1 & Ha1).
    exists st1. repeat split; congruence.
Qed.

(** The away entry first, the home entry second. *)
Lemma get_home_away_tagged_pair_witness :
  exists r,
    get_home_away
      (PList [competitor (Some "away") "AUB" "2" "Auburn";
              competitor (Some "home") "ALA" "333" "Alabama"]) = Ok r /\
    home_fields r =
      [PStr "ALA"; PStr "333"; PStr "9e1b32"; PNaN; PStr "logo.png"; PStr "Alabama"] /\
    away_fields r =
      [PStr "AUB"; PStr "2"; PStr "9e1b32"; PNaN; PStr "logo.png"; PStr "Auburn"].
Proof.
  exact (get_home_away_tagged_pair
           (PList [competitor (Some "away") "AUB" "2" "Auburn";
                   competitor (Some "home") "ALA" "333" "Alabama"])
           _ _ _ _ false eq_refl eq_refl eq_refl eq_refl eq_refl eq_refl).
Defined.

(** When the first read of the first entry raises, the loop ends there:
    all twelve values are [None], whatever the second entry holds. *)
Theorem get_home_away_first_entry_unreadable (_json : pyval) :
  first_read_fails _json = true ->
  get_home_away _json = Ok defaults.
Proof.
  unfold first_read_fails, get_home_away, loop, iteration.
  destruct (is_home _json 0) as [b | e]; [| destruct e; reflexivity].
  destruct (py_index _json 0) as [c | e]; [| destruct e; reflexivity].
  destruct (team_item c "abbreviation") as [a | e] eqn:Ha; [discriminate |].
  intros _. destruct b; simpl; rewrite Ha; destruct e; reflexivity.
Qed.

(** A first entry without its "team" object, before a complete one. *)
Lemma get_home_away_first_entry_unreadable_witness :
  get_home_away
    (PList [PDict [("homeAway", PStr "home")];
            competitor (Some "away") "AUB" "2" "Auburn"]) = Ok defaults.
Proof.
  exact (get_home_away_first_entry_unreadable
           (PList [PDict [("homeAway", PStr "home")];
                   competitor (Some "away") "AUB" "2" "Auburn"]) eq_refl).
Defined.

(** ** Play Record Builder: the frame it returns *)

Lemma nth_error_combine {A B : Type} (l : list A) :
  forall (l' : list B) (i : nat) (x : A) (y : B),
    nth_error (combine l l') i = Some (x, y) <->
    nth_error l i = Some x /\ nth_error l' i = Some y.
Proof.
  induction l as [| a t IH]; intros l' i x y.
  - simpl. destruct i; split; try discriminate; intros [H _]; discriminate H.
  - destruct l' as [| b t'].
    + simpl. destruct i; split; try discriminate; intros [_ H]; discriminate H.
    + destruct i as [| i]; simpl.
      * split; [intros H; injection H as <- <-; split; reflexivity
               | intros [H1 H2]; congruence].
      * apply IH.
Qed.

(** What a returned frame comes from: nothing at all, or the frame
    [fill_frame] had built when the block ended or raised
    [AttributeError]. *)
Lemma get_play_by_play_inv (json : pyval) (df : frame) :
  get_play_by_play json = Ok df ->
  df = [] \/
  exists roster plays header raised,
    resolve_roster json = Ok roster /\
    extract_plays json = Ok plays /\
    header_fields json = Ok header /\
    fill_frame roster header plays = (df, raised) /\
    (raised = None \/ raised = Some AttributeError).
Proof.
  unfold get_play_by_play, try_block. intros H.
  apply bind_Ok in H. destruct H as (roster & Hroster & H).
  destruct (extract_plays json) as [plays | e].
  - destruct (header_fields json) as [header | e'].
    + destruct (fill_frame roster header plays) as [game_df raised] eqn:Hfill.
      right. exists roster, plays, header, raised.
      destruct raised as [[] |]; try discriminate H; injection H as <-;
        repeat split; auto.
    + left. destruct e'; congruence.
  - left. destruct e; congruence.
Qed.

(** The seconds column, when there is one, holds what the converter
    returned for each play. *)
Lemma seconds_column_rows (plays : list play) (seconds : list pyval) :
  seconds_column plays = Ok seconds ->
  mapM (fun p => convert_clock_to_seconds (pl_clock p) (pl_quarter p)) plays = Ok seconds.
Proof. destruct plays; [discriminate | exact (fun H => H)]. Qed.

(** The branches of [fill_frame] a returned frame can come from. *)
Ltac frame_cases Hfill Hraised header roster plays :=
  unfold fill_frame in Hfill;
  destruct header as [[[game_id year] season_type] week];
  destruct roster as [ha |];
  [ destruct (seconds_column plays) as [seconds | e] eqn:Hseconds;
    [ apply seconds_column_rows in Hseconds;
      destruct (apply_timeouts _ _ _) as [timeouts | e] eqn:Htimeouts |]
  | ];
  injection Hfill as <- <-;
  try (destruct Hraised as [Hraised | Hraised]; discriminate Hraised).

Lemma series_rows_length (plays : list play) (seconds : list pyval) :
  List.length seconds = List.length plays ->
  List.length (series_rows plays seconds) = List.length plays.
Proof.
  intros H. unfold series_rows. rewrite length_map, length_combine, H.
  apply Nat.min_id.
Qed.

(** A returned frame has none of the 28 columns, or the first 17 (a
    clock raised [AttributeError]), or the first 24 (the tracker did), or
    all of them.  If it has any, its [play_id] column lists the ids of
    the plays in the order of the document, drive after drive, and every
    column has one cell per play. *)
Theorem frame_columns_and_rows (json : pyval) (df : frame) :
  get_play_by_play json = Ok df ->
  In (map fst df)
     [[]; firstn 17 column_names; firstn 24 column_names; column_names] /\
  (df = [] \/
   exists plays,
     extract_plays json = Ok plays /\
     assoc "play_id" df = Some (map pl_id plays) /\
     Forall (fun c => List.length (snd c) = List.length plays) df).
Proof.
  intros H.
  destruct (get_play_by_play_inv json df H)
    as [-> | (roster & plays & header & raised & _ & Hplays & _ & Hfill & Hraised)].
  { split; [left; reflexivity | left; reflexivity]. }
  frame_cases Hfill Hraised header roster plays.
  - pose proof (mapM_same_length _ _ _ Hseconds) as Ls.
    pose proof (apply_timeouts_length _ _ _ _ Htimeouts) as Lt.
    rewrite (series_rows_length _ _ Ls) in Lt.
    split; [right; right; right; left; reflexivity |].
    right. exists plays. split; [exact Hplays |]. split; [reflexivity |].
    repeat constructor; simpl; unfold broadcast;
      rewrite ?length_map, ?repeat_length, ?length_combine, ?length_map, ?Ls, ?Lt,
        ?Nat.min_id; reflexivity.
  - pose proof (mapM_same_length _ _ _ Hseconds) as Ls.
    split; [right; right; left; reflexivity |].
    right. exists plays. split; [exact Hplays |]. split; [reflexivity |].
    repeat constructor; simpl; unfold broadcast;
      rewrite ?length_map, ?repeat_length, ?Ls; reflexivity.
  - split; [right; left; reflexivity |].
    right. exists plays. split; [exact Hplays |]. split; [reflexivity |].
    repeat constructor; simpl; unfold broadcast;
      rewrite ?length_map, ?repeat_length; reflexivity.
Qed.

(** The one row of [kickoff_game]. *)
Lemma frame_columns_and_rows_witness :
  map fst kickoff_frame = column_names /\
  Forall (fun c => List.length (snd c) = 1%nat) kickoff_frame.
Proof.
  split; [reflexivity |].
  destruct (proj2 (frame_columns_and_rows kickoff_game kickoff_frame eq_refl))
    as [H | (plays & Hplays & _ & Hall)]; [discriminate H |].
  vm_compute in Hplays. injection Hplays as <-. exact Hall.
Defined.



Lemma apply_timeouts_nth (location : pyval) (rows : list Series) :
  forall (df : Z * Z) (out : list (Z * Z)) (i : nat) (s : Z * Z),
    apply_timeouts location rows df = Ok out ->
    nth_error out i = Some s ->
    exists row df',
      nth_error rows i = Some row /\ timeout_decrementor row df' location = Ok s.
Proof.
  induction rows as [| row rest IH]; simpl; intros df out i s H Hi.
  - injection H as <-. destruct i; discriminate Hi.
  - apply bind_Ok in H. destruct H as (s0 & Hs0 & H).
    apply bind_Ok in H. destruct H as (out' & Hrest & H).
    injection H as <-. destruct i as [| i]; simpl in Hi.
    + injection Hi as <-. exists row, df. split; [reflexivity | exact Hs0].
    + exact (IH _ _ _ _ Hrest Hi).
Qed.

Lemma half_reset_returns_three (row : Series) (df s : Z * Z) (location : pyval) :
  is_half_reset row = true ->
  timeout_decrementor row df location = Ok s -> s = (3, 3).
Proof.
  unfold is_half_reset. destruct row as [type desc seconds label]. intros Hr H.
  destruct seconds; simpl in Hr; try discriminate Hr.
  - destruct b; apply Z.eqb_eq in Hr; discriminate Hr.
  - apply Z.eqb_eq in Hr. subst n.
    tracker_cases H; simpl in *; congruence.
Qed.

Lemma ot_reset_returns (row : Series) (df s : Z * Z) (location : pyval) :
  is_ot_reset row = true ->
  timeout_decrementor row df location = Ok s ->
  In s [(1, 1); (0, 1); (1, 0)].
Proof.
  unfold is_ot_reset. intros Hr H.
  tracker_cases H; simpl in *; try congruence; auto.
Qed.

Lemma series_rows_nth (plays : list play) (seconds : list pyval) (i : nat) (row : Series) :
  nth_error (series_rows plays seconds) i = Some row ->
  exists p,
    nth_error plays i = Some p /\
    nth_error seconds i = Some (game_seconds_remaining row) /\
    half row = half_of (pl_quarter p).
Proof.
  unfold series_rows. rewrite nth_error_map.
  destruct (nth_error (combine plays seconds) i) as [[p g] |] eqn:E; [| discriminate].
  simpl. intros H. injection H as <-. simpl.
  apply nth_error_combine in E. destruct E as [Hp Hg].
  exists p. repeat split; assumption.
Qed.

(** In a returned frame, a row whose [game_seconds_remaining] is 1800
    shows 3 and 3 in the two timeout columns; a row at second 0 whose
    half label holds "OT" shows 1 and 1, or 0 on one side and 1 on the
    other. *)
Theorem frame_reset_rows (json : pyval) (df : frame) (i : nat) (h a : pyval) :
  get_play_by_play json = Ok df ->
  cell df "home_timeouts" i = Some h ->
  cell df "away_timeouts" i = Some a ->
  (cell df "game_seconds_remaining" i = Some (PInt 1800) ->
   h = PInt 3 /\ a = PInt 3) /\
  (cell df "game_seconds_remaining" i = Some (PInt 0) ->
   (exists label, cell df "half" i = Some (PStr label) /\ str_contains "OT" label = true) ->
   In (h, a) [(PInt 1, PInt 1); (PInt 0, PInt 1); (PInt 1, PInt 0)]).
Proof.
  intros H Hh Ha.
  destruct (get_play_by_play_inv json df H)
    as [-> | (roster & plays & header & raised & _ & _ & _ & Hfill & Hraised)];
    [discriminate Hh |].
  frame_cases Hfill Hraised header roster plays; unfold cell in *; simpl in Hh, Ha |- *;
    try discriminate Hh.
  rewrite nth_error_map in Hh, Ha.
  destruct (nth_error timeouts i) as [s |] eqn:Hs; [| discriminate Hh].
  injection Hh as <-. injection Ha as <-.
  destruct (apply_timeouts_nth _ _ _ _ _ _ Htimeouts Hs) as (row & df' & Hrow & Hcall).
  destruct (series_rows_nth _ _ _ _ Hrow) as (p & Hp & Hg & Hhalf).
  split.
  - intros Hsec. rewrite Hsec in Hg. injection Hg as Hg.
    assert (is_half_reset row = true) as Hreset
      by (unfold is_half_reset; rewrite <- Hg; reflexivity).
    rewrite (half_reset_returns_three _ _ _ _ Hreset Hcall). split; reflexivity.
  - intros Hsec (label & Hlabel & Hot). rewrite Hsec in Hg. injection Hg as Hg.
    rewrite nth_error_map, Hp in Hlabel. simpl in Hlabel. injection Hlabel as Hlabel.
    assert (is_ot_reset row = true) as Hreset.
    { unfold is_ot_reset. rewrite <- Hg, Hhalf, Hlabel. simpl. exact Hot. }
    pose proof (ot_reset_returns _ _ _ _ Hreset Hcall) as Hin.
    simpl in Hin. destruct Hin as [<- | [<- | [<- | []]]]; simpl; auto.
Qed.

Lemma frame_reset_rows_witness :
  cell two_halves_frame "home_timeouts" 0 = Some (PInt 2) /\
  cell two_halves_frame "game_seconds_remaining" 1 = Some (PInt 1800) /\
  cell two_halves_frame "home_timeouts" 1 = Some (PInt 3) /\
  PInt 3 = PInt 3 /\ PInt 3 = PInt 3.
Proof.
  split; [reflexivity |]. split; [reflexivity |]. split; [reflexivity |].
  exact (proj1 (frame_reset_rows two_halves_game two_halves_frame 1 (PInt 3) (PInt 3)
                  eq_refl eq_refl eq_refl) eq_refl).
Defined.

(** In a returned frame with the timeout columns, [posteam_tos] is the
    home counter of the row when the possessing-team id equals the home
    id and the away counter otherwise, and [defteam_tos] is chosen the
    same way by the defending-team id. *)
Theorem tos_columns_pick_a_counter (json : pyval) (df : frame) (i : nat)
    (posteam defteam home_id h a : pyval) :
  get_play_by_play json = Ok df ->
  cell df "posteam" i = Some posteam ->
  cell df "defteam" i = Some defteam ->
  cell df "home_id" i = Some home_id ->
  cell df "home_timeouts" i = Some h ->
  cell df "away_timeouts" i = Some a ->
  cell df "posteam_tos" i = Some (if py_eq posteam home_id then h else a) /\
  cell df "defteam_tos" i = Some (if py_eq defteam home_id then h else a).
Proof.
  intros H Hpos Hdef Hhome Hh Ha.
  destruct (get_play_by_play_inv json df H)
    as [-> | (roster & plays & header & raised & _ & _ & _ & Hfill & Hraised)];
    [discriminate Hh |].
  frame_cases Hfill Hraised header roster plays; unfold cell in *;
    simpl in Hpos, Hdef, Hhome, Hh, Ha |- *; try discriminate Hh.
  apply nth_error_broadcast in Hhome. subst home_id.
  rewrite nth_error_map in Hh, Ha.
  destruct (nth_error timeouts i) as [s |] eqn:Hs; [| discriminate Hh].
  injection Hh as <-. injection Ha as <-.
  rewrite !nth_error_map.
  rewrite (proj2 (nth_error_combine _ _ i posteam s) (conj Hpos Hs)).
  rewrite (proj2 (nth_error_combine _ _ i defteam s) (conj Hdef Hs)).
  simpl. unfold tos_of.
  split; [destruct (py_eq posteam (_hid ha)) | destruct (py_eq defteam (_hid ha))];
    reflexivity.
Qed.

Lemma tos_columns_pick_a_counter_witness :
  cell two_halves_frame "posteam_tos" 0 = Some (PInt 2) /\
  cell two_halves_frame "defteam_tos" 0 = Some (PInt 3).
Proof.
  exact (tos_columns_pick_a_counter two_halves_game two_halves_frame 0
           (PStr "333") (PStr "2") (PStr "333") (PInt 2) (PInt 3)
           eq_refl eq_refl eq_refl eq_refl eq_refl eq_refl).
Defined.

(** ** Play Record Builder: what a play must hold, and what can be raised *)

Lemma getitem_key (d : list (string * pyval)) (k : string) (v : pyval) :
  py_getitem (PDict d) k = Ok v -> assoc k d = Some v.
Proof. simpl. destruct (assoc k d); congruence. Qed.

Lemma getitem_then_key {A : Type} (p : pyval) (k : string)
    (f : pyval -> outcome A) (x : A) :
  (v <- py_getitem p k ;; f v) = Ok x ->
  exists d v, p = PDict d /\ assoc k d = Some v.
Proof.
  intros H. apply bind_Ok in H. destruct H as (v & Hv & _).
  destruct p; try discriminate Hv.
  exists d, v. split; [reflexivity | exact (getitem_key _ _ _ Hv)].
Qed.

(** A play that [extract_play] reads is an object holding the seven keys
    lines 220-232 subscript it with; its description is its "text", or
    "N/A" when it has no such key; and its play type is "N/A" when it
    has no "type" or [null] under it. *)
Theorem extract_play_reads (p : pyval) (pl : play) :
  extract_play p = Ok pl ->
  exists d,
    p = PDict d /\
    Forall (fun k => exists v, assoc k d = Some v) required_keys /\
    pl_desc pl = match assoc "text" d with
                 | Some text => text
                 | None => PStr "N/A"
                 end /\
    (assoc "type" d = None \/ assoc "type" d = Some PNone ->
     pl_play_type pl = PStr "N/A").
Proof.
  unfold extract_play. intros H.
  destruct p as [| | | | | | d]; try discriminate H.
  exists d. split; [reflexivity |].
  invert_binds H. injection H as <-. simpl pl_desc. simpl pl_play_type.
  unfold start_get in *.
  repeat match goal with
         | Hx : py_getitem (PDict d) _ = Ok _ |- _ => apply getitem_key in Hx
         | Hx : bind (py_getitem (PDict d) _) _ = Ok _ |- _ =>
             apply getitem_then_key in Hx;
             let d' := fresh "d" in
             let v := fresh "v" in
             let E := fresh "E" in
             destruct Hx as (d' & v & E & Hx); injection E as <-
         end.
  split; [| split].
  - unfold required_keys. repeat constructor; eexists; eassumption.
  - match goal with
    | Hx : py_in (PStr "text") (PDict d) = Ok ?b,
      Ht : (if ?b then _ else _) = Ok _ |- _ =>
        simpl in Hx; injection Hx as <-; simpl in Ht;
        destruct (assoc "text" d); congruence
    end.
  - intros Htype.
    match goal with
    | Hx : py_get (PDict d) "type" = Ok ?ty,
      Ht : (if negb (is_None ?ty) then _ else _) = Ok _ |- _ =>
        simpl in Hx; injection Hx as <-;
        destruct Htype as [E | E]; rewrite E in Ht; simpl in Ht; congruence
    end.
Qed.

Lemma extract_play_reads_witness :
  exists d,
    PDict [("id", PInt 7); ("homeScore", PInt 0); ("awayScore", PInt 3);
           ("period", PDict []); ("clock", PDict []); ("start", PDict [("team", PDict [])]);
           ("statYardage", PInt 0)] = PDict d /\
    Forall (fun k => exists v, assoc k d = Some v) required_keys.
Proof.
  destruct (extract_play_reads
              (PDict [("id", PInt 7); ("homeScore", PInt 0); ("awayScore", PInt 3);
                      ("period", PDict []); ("clock", PDict []);
                      ("start", PDict [("team", PDict [])]); ("statYardage", PInt 0)])
              _ eq_refl) as (d & Hd & Hkeys & _).
  exists d. split; assumption.
Defined.

Lemma ode_Ok {A : Type} (a : A) : only_data_errors (Ok a).
Proof. intros e H. discriminate H. Qed.

Lemma ode_bind {A B : Type} (m : outcome A) (k : A -> outcome B) :
  only_data_errors m -> (forall a, only_data_errors (k a)) ->
  only_data_errors (bind m k).
Proof.
  intros Hm Hk e. destruct m as [a | e']; simpl.
  - apply Hk.
  - intros H. injection H as <-. apply Hm. reflexivity.
Qed.

Lemma ode_mapM {A B : Type} (f : A -> outcome B) (l : list A) :
  (forall x, only_data_errors (f x)) -> only_data_errors (mapM f l).
Proof.
  intros Hf. induction l as [| x t IH]; simpl; [apply ode_Ok |].
  apply ode_bind; [apply Hf | intros y].
  apply ode_bind; [exact IH | intros ys; apply ode_Ok].
Qed.

Lemma ode_get (v : pyval) (k : string) : only_data_errors (py_get v k).
Proof.
  intros e. destruct v; simpl; intros H; try discriminate H;
    injection H as <-; reflexivity.
Qed.

Lemma ode_getitem (v : pyval) (k : string) : only_data_errors (py_getitem v k).
Proof.
  intros e. destruct v; simpl; try (intros H; injection H as <-; reflexivity).
  destruct (assoc k d); intros H; [discriminate H | injection H as <-; reflexivity].
Qed.

Lemma ode_index (v : pyval) (i : nat) : only_data_errors (py_index v i).
Proof.
  intros e. destruct v; simpl; try (intros H; injection H as <-; reflexivity).
  - destruct (get i s); intros H; [discriminate H | injection H as <-; reflexivity].
  - destruct (nth_error l i); intros H; [discriminate H | injection H as <-; reflexivity].
Qed.

Lemma ode_in (a b : pyval) : only_data_errors (py_in a b).
Proof.
  intros e. destruct b; simpl; try (intros H; injection H as <-; reflexivity).
  - destruct a; intros H; try discriminate H; injection H as <-; reflexivity.
  - discriminate.
  - destruct a; intros H; try discriminate H; injection H as <-; reflexivity.
Qed.

Lemma ode_iter (v : pyval) : only_data_errors (py_iter v).
Proof.
  intros e. destruct v; simpl; intros H; try discriminate H;
    injection H as <-; reflexivity.
Qed.

Lemma ode_upper (v : pyval) : only_data_errors (py_upper v).
Proof.
  intros e. destruct v; simpl; intros H; try discriminate H;
    injection H as <-; reflexivity.
Qed.

(** Goals of the form [only_data_errors _], through binds and branches. *)
Ltac ode :=
  repeat first
    [ apply ode_Ok
    | apply ode_get
    | apply ode_getitem
    | apply ode_index
    | apply ode_in
    | apply ode_iter
    | apply ode_upper
    | apply ode_bind; [| intros ?]
    | match goal with
      | |- only_data_errors (if ?b then _ else _) => destruct b
      end ].

Lemma ode_extract_plays (json : pyval) : only_data_errors (extract_plays json).
Proof.
  unfold extract_plays. ode.
  apply ode_mapM. intros drive. ode.
  apply ode_mapM. intros p. unfold extract_play, start_get. ode.
Qed.

Lemma ode_competition (json : pyval) : only_data_errors (competition json).
Proof. unfold competition. ode. Qed.

Lemma ode_header_fields (json : pyval) : only_data_errors (header_fields json).
Proof.
  unfold header_fields. ode; apply ode_competition.
Qed.

Lemma ode_convert_clock (clock quarter : pyval) :
  only_data_errors (convert_clock_to_seconds clock quarter).
Proof.
  unfold convert_clock_to_seconds.
  assert (Hrest : only_data_errors
                    (parts <- py_split_colon clock ;;
                     ' (minutes, seconds) <- unpack_two_ints parts ;;
                     (let quarter_seconds := minutes * 60 + seconds in
                      le4 <- py_le_int quarter 4 ;;
                      factor <- (if le4 then py_int_sub 4 quarter else Ok (PInt 0)) ;;
                      (let total_seconds := py_mul_int (py_mul_int factor 15) 60 in
                       Ok (py_int_add quarter_seconds total_seconds))))).
  { apply ode_bind.
    - intros e. destruct clock; simpl; intros H; try discriminate H;
        injection H as <-; reflexivity.
    - intros parts. apply ode_bind.
      + intros e H. rewrite (unpack_two_ints_raises _ _ H). reflexivity.
      + intros [m sec]. apply ode_bind.
        * intros e. unfold py_le_int. destruct quarter; simpl; intros H;
            try discriminate H; injection H as <-; reflexivity.
        * intros le4. apply ode_bind; [| intros factor; apply ode_Ok].
          destruct le4; [| apply ode_Ok].
          intros e. unfold py_int_sub. destruct quarter; simpl; intros H;
            try discriminate H; injection H as <-; reflexivity. }
  destruct clock; try exact Hrest. apply ode_Ok.
Qed.

Lemma ode_timeout_decrementor (row : Series) (df : Z * Z) (location : pyval) :
  only_data_errors (timeout_decrementor row df location).
Proof.
  unfold timeout_decrementor, names_location, names_location_ot. ode.
Qed.

Lemma ode_apply_timeouts (location : pyval) (rows : list Series) :
  forall df, only_data_errors (apply_timeouts location rows df).
Proof.
  induction rows as [| row rest IH]; intros df; simpl; [apply ode_Ok |].
  apply ode_bind; [apply ode_timeout_decrementor | intros s].
  apply ode_bind; [apply IH | intros out; apply ode_Ok].
Qed.

(** When line 193 left the roster unbound, lines 234-239 raise: the
    block never gets to line 245, which reads it. *)
Lemma unbound_roster_is_never_read (json : pyval)
    (header : pyval * pyval * pyval * pyval) :
  resolve_roster json = Ok None -> header_fields json = Ok header -> False.
Proof.
  unfold resolve_roster, header_fields. intros Hr Hh.
  invert_binds Hh.
  match goal with
  | Hx : bind (competition json) (fun c => py_getitem c "neutralSite") = Ok _ |- _ =>
      apply bind_Ok in Hx; destruct Hx as (c & Hc & Hitem)
  end.
  rewrite Hc in Hr. simpl in Hr.
  destruct c as [| | | | | | d]; try discriminate Hitem.
  simpl in Hr.
  destruct (get_home_away_returns
              match assoc "competitors" d with Some x => x | None => PNone end)
    as (r & Hret).
  rewrite Hret in Hr. discriminate Hr.
Qed.

Lemma fill_frame_raises (roster : option HomeAway)
    (header : pyval * pyval * pyval * pyval) (plays : list play)
    (df : frame) (e : exc) :
  fill_frame roster header plays = (df, Some e) ->
  roster = None \/ data_error e = true.
Proof.
  intros Hfill. unfold fill_frame in Hfill.
  destruct header as [[[game_id year] season_type] week].
  destruct roster as [ha |]; [right | left; reflexivity].
  destruct (seconds_column plays) as [seconds | e'] eqn:Hseconds.
  - destruct (apply_timeouts _ _ _) as [timeouts | e''] eqn:Htimeouts;
      inversion Hfill; subst.
    exact (ode_apply_timeouts _ _ _ _ Htimeouts).
  - inversion Hfill; subst.
    destruct plays as [| p0 plays0]; [injection Hseconds as <-; reflexivity |].
    refine (ode_mapM _ _ _ _ Hseconds). intros p. apply ode_convert_clock.
Qed.

(** An exception that leaves [get_play_by_play] is a [TypeError], a
    [KeyError], an [IndexError] or a [ValueError]: an [AttributeError]
    is caught on both [try] blocks, and the names line 193 may leave
    unbound are never read. *)
Theorem get_play_by_play_raises (json : pyval) (e : exc) :
  get_play_by_play json = Raise e ->
  In e [TypeError; KeyError; IndexError; ValueError].
Proof.
  assert (Hin : forall x, data_error x = true -> x <> AttributeError ->
                          In x [TypeError; KeyError; IndexError; ValueError]).
  { intros x Hx Hne. destruct x; simpl; try discriminate Hx; auto 6; congruence. }
  unfold get_play_by_play. intros H.
  destruct (resolve_roster json) as [roster | e0] eqn:Hroster; simpl in H.
  - destruct (try_block json roster) as [game_df raised] eqn:Htry.
    destruct raised as [e' |]; [| discriminate H].
    assert (data_error e' = true) as Hdata.
    { unfold try_block in Htry.
      destruct (extract_plays json) as [plays | e1] eqn:Hplays.
      - destruct (header_fields json) as [header | e2] eqn:Hheader.
        + destruct (fill_frame_raises _ _ _ _ _ Htry) as [-> | Hd]; [| exact Hd].
          destruct (unbound_roster_is_never_read json header Hroster Hheader).
        + inversion Htry; subst. exact (ode_header_fields json _ Hheader).
      - inversion Htry; subst. exact (ode_extract_plays json _ Hplays). }
    apply Hin; [destruct e'; try discriminate H; injection H as <-; exact Hdata |].
    intros ->. destruct e'; discriminate H.
  - injection H as <-. unfold resolve_roster in Hroster.
    destruct (bind (competition json) _) as [r | e1] eqn:Hinner; [discriminate Hroster |].
    assert (data_error e1 = true) as Hdata.
    { revert Hinner. apply ode_bind; [apply ode_competition | intros c].
      apply ode_bind; [apply ode_get | intros competitors].
      intros x Hx. destruct (get_home_away_returns competitors) as (r & Hr).
      rewrite Hr in Hx. discriminate Hx. }
    apply Hin; destruct e1; try discriminate Hroster; injection Hroster as <-;
      try exact Hdata; discriminate.
Qed.

Lemma get_play_by_play_raises_witness :
  In TypeError [TypeError; KeyError; IndexError; ValueError].
Proof.
  exact (get_play_by_play_raises header_without_competitions TypeError eq_refl).
Defined.

(** ** [get_teams] and the loop of [extract_season] *)



(** A game whose date is outside the inclusive range is never looked at:
    the loop over all games is the loop over those in range. *)
Theorem season_loop_ignores_out_of_range
    (fetch : Z -> pyval) (start_date end_date : Z) (games : list (Z * Z)) :
  forall pbp teams,
    season_loop fetch start_date end_date games pbp teams =
    season_loop fetch start_date end_date
      (filter (in_range start_date end_date) games) pbp teams.
Proof.
  induction games as [| [game date] rest IH]; intros pbp teams; simpl; [reflexivity |].
  unfold in_range at 1. simpl snd.
  destruct ((start_date <=? date) && (date <=? end_date)) eqn:E; simpl; [| apply IH].
  rewrite E.
  destruct (get_play_by_play (fetch game)) as [df | []]; try reflexivity; [| apply IH].
  destruct (get_teams (fetch game)) as [t | []]; try reflexivity; apply IH.
Qed.

Lemma no_header_unbinds_roster (d : list (string * pyval)) :
  assoc "header" d = None -> resolve_roster (PDict d) = Ok None.
Proof.
  intros H. unfold resolve_roster, competition. simpl. rewrite H. reflexivity.
Qed.

Lemma no_header_no_frame (d : list (string * pyval)) :
  assoc "header" d = None ->
  lacks_drives (PDict d) = true ->
  get_play_by_play (PDict d) = Ok [].
Proof.
  intros Hh Hd. unfold get_play_by_play, try_block.
  rewrite (no_header_unbinds_roster d Hh), (lacks_drives_extract _ Hd). reflexivity.
Qed.

(** A season does not complete when one game in range answers with an
    object that has neither a header nor drives: [get_play_by_play]
    returns the empty frame for it, [get_teams] then reads a name line
    295 left unbound, and the [UnboundLocalError] is not the [TypeError]
    the loop catches. *)
Theorem headerless_document_stops_season
    (fetch : Z -> pyval) (start_date end_date : Z) (games : list (Z * Z))
    (game date : Z) (d : list (string * pyval)) :
  In (game, date) games ->
  in_range start_date end_date (game, date) = true ->
  fetch game = PDict d ->
  assoc "header" d = None ->
  lacks_drives (PDict d) = true ->
  forall pbp teams,
    exists e, season_loop fetch start_date end_date games pbp teams = Raise e /\
              e <> TypeError.
Proof.
  intros Hin Hrange Hdoc Hh Hd.
  induction games as [| [g dt] rest IH]; [contradiction Hin |].
  intros pbp teams. simpl.
  destruct Hin as [Heq | Hin].
  - injection Heq as -> ->. unfold in_range in Hrange. simpl in Hrange.
    rewrite Hrange, Hdoc, (no_header_no_frame d Hh Hd).
    unfold get_teams. rewrite (no_header_unbinds_roster d Hh). simpl.
    exists UnboundLocalError. split; [reflexivity | discriminate].
  - destruct ((start_date <=? dt) && (dt <=? end_date)); [| exact (IH Hin pbp teams)].
    destruct (get_play_by_play (fetch g)) as [df | e] eqn:Hg.
    + destruct (get_teams (fetch g)) as [t | e] eqn:Ht.
      * exact (IH Hin _ _).
      * destruct e; try (eexists; split; [reflexivity | discriminate]).
        exact (IH Hin _ _).
    + destruct e; try (eexists; split; [reflexivity | discriminate]).
      exact (IH Hin _ _).
Qed.

Lemma headerless_document_stops_season_witness :
  exists e,
    season_loop (fun game => if game =? 2 then PDict [] else kickoff_game)
      20230801 20240131 [(1, 20230902); (2, 20230909); (3, 20230916)] [] [] = Raise e.
Proof.
  destruct (headerless_document_stops_season
              (fun game => if game =? 2 then PDict [] else kickoff_game)
              20230801 20240131 [(1, 20230902); (2, 20230909); (3, 20230916)]
              2 20230909 [] (or_intror (or_introl eq_refl)) eq_refl eq_refl eq_refl eq_refl
              [] []) as (e & He & _).
  exists e. exact He.
Defined.

(** ** Batch cleanup: what else the pass does *)

Lemma update_names_present {A : Type} (k : string) (v w : A) (d : list (string * A)) :
  assoc k d = Some w -> map fst (update k v d) = map fst d.
Proof.
  induction d as [| [k' x] t IH]; simpl; [discriminate |].
  destruct (String.eqb_spec k k') as [-> | Hne]; simpl; [reflexivity |].
  intros H. rewrite (IH H). reflexivity.
Qed.

Lemma update_names_absent {A : Type} (k : string) (v : A) (d : list (string * A)) :
  assoc k d = None -> map fst (update k v d) = (map fst d ++ [k])%list.
Proof.
  induction d as [| [k' x] t IH]; simpl; [reflexivity |].
  destruct (String.eqb_spec k k') as [-> | Hne]; simpl; [discriminate |].
  intros H. rewrite (IH H). reflexivity.
Qed.

Lemma assoc_absent {A : Type} (k : string) (d : list (string * A)) :
  assoc k d = None -> ~ In k (map fst d).
Proof.
  intros H Hin. destruct (assoc_of_name k d Hin) as [v Hv]. congruence.
Qed.

Lemma assoc_name {A : Type} (k : string) (d : list (string * A)) (v : A) :
  assoc k d = Some v -> In k (map fst d).
Proof.
  induction d as [| [k' x] t IH]; simpl; [discriminate |].
  destruct (String.eqb_spec k k') as [-> | Hne]; [left; reflexivity | right; auto].
Qed.

(** The loop changes no name, no file it does not visit and no number
    of rows, and adds the rows of every file it visits to the combined
    rows. *)
Lemma clean_loop_frame (csv_files : list string) :
  forall (fs : files) (combined_data : list csv_row) (fs' : files) (out : list csv_row),
    clean_loop csv_files fs combined_data = Ok (fs', out) ->
    map fst fs' = map fst fs /\
    (forall file, ~ In file csv_files -> assoc file fs' = assoc file fs) /\
    (forall file, List.length (rows_of fs' file) = List.length (rows_of fs file)) /\
    List.length out =
      (List.length combined_data +
       list_sum (map (fun file => List.length (rows_of fs file)) csv_files))%nat.
Proof.
  induction csv_files as [| file rest IH]; simpl; intros fs combined_data fs' out H.
  - injection H as <- <-. repeat split. lia.
  - apply bind_Ok in H. destruct H as (rows & Hread & H).
    apply bind_Ok in H. destruct H as (curr & Hcurr & H).
    unfold read_csv in Hread.
    destruct (assoc file fs) as [rows0 |] eqn:Hrows; [| discriminate Hread].
    injection Hread as <-.
    pose proof (apply_positive_length _ _ Hcurr) as Hlen.
    destruct (IH _ _ _ _ H) as (Hnames & Hother & Hrowlen & Hout).
    assert (Hstep : forall f, List.length (rows_of (to_csv curr file fs) f) =
                              List.length (rows_of fs f)).
    { intros f. unfold rows_of, to_csv. destruct (string_dec f file) as [-> | Hne].
      - rewrite assoc_update_same, Hrows. exact Hlen.
      - rewrite (assoc_update_other _ _ _ _ Hne). reflexivity. }
    split; [| split; [| split]].
    + rewrite Hnames. unfold to_csv. exact (update_names_present _ _ _ _ Hrows).
    + intros f Hf. rewrite Hother by tauto.
      unfold to_csv. apply assoc_update_other. intros ->. apply Hf. left. reflexivity.
    + intros f. rewrite Hrowlen. apply Hstep.
    + rewrite Hout, length_app, Hlen, (map_ext _ _ Hstep).
      replace (rows_of fs file) with rows0 by (unfold rows_of; rewrite Hrows; reflexivity).
      lia.
Qed.

(** When the pass returns, the combined file has as many rows as the
    files the pass visits have together, and a file the pass does not
    visit, other than the combined file, is left as it was. *)
Theorem clean_keeps_rows_and_other_files (fs fs' : files) :
  clean fs = Ok fs' ->
  exists combined : list csv_row,
    assoc combined_csv fs' = Some combined /\
    List.length combined =
      list_sum (map (fun file => List.length (rows_of fs file)) (glob_years_csv fs)) /\
    (forall file,
        ~ In file (glob_years_csv fs) -> file <> combined_csv ->
        assoc file fs' = assoc file fs).
Proof.
  unfold clean. intros H.
  apply bind_Ok in H. destruct H as ([fs1 combined] & Hrun & H).
  injection H as <-.
  destruct (clean_loop_frame _ _ _ _ _ Hrun) as (_ & Hother & _ & Hout).
  exists combined. split; [unfold to_csv; apply assoc_update_same |].
  split; [exact Hout |].
  intros file Hnot Hne. unfold to_csv.
  rewrite (assoc_update_other _ _ _ _ Hne). exact (Hother file Hnot).
Qed.

Lemma clean_keeps_rows_and_other_files_witness :
  exists combined : list csv_row,
    assoc combined_csv season_2023_cleaned = Some combined /\
    List.length combined = 2%nat /\
    assoc "2022play_by_play.csv" season_2023_cleaned =
    assoc "2022play_by_play.csv" season_2023_disk.
Proof.
  destruct (clean_keeps_rows_and_other_files season_2023_disk season_2023_cleaned eq_refl)
    as (combined & Hc & Hlen & Hother).
  exists combined. split; [exact Hc |]. split; [exact Hlen |].
  apply Hother; [| discriminate].
  vm_compute. intros [H | []]. discriminate H.
Defined.

(** The pass run a second time doubles the combined file: the file the
    first run wrote is itself matched by [years/*.csv].  Stated for a
    disk that had no combined file before the first run. *)
Theorem clean_twice_doubles_combined (fs fs1 fs2 : files) :
  assoc combined_csv fs = None ->
  clean fs = Ok fs1 ->
  clean fs1 = Ok fs2 ->
  List.length (rows_of fs2 combined_csv) =
  (2 * List.length (rows_of fs1 combined_csv))%nat.
Proof.
  intros Hnone H1 H2.
  (* the first run *)
  unfold clean in H1.
  apply bind_Ok in H1. destruct H1 as ([fsa combined1] & Hruna & H1).
  injection H1 as <-.
  destruct (clean_loop_frame _ _ _ _ _ Hruna) as (Hnamesa & _ & Hlena & Houta).
  simpl in Houta.
  assert (Hnonea : assoc combined_csv fsa = None).
  { destruct (assoc combined_csv fsa) as [rows |] eqn:E; [| reflexivity].
    exfalso. apply (assoc_absent _ _ Hnone). rewrite <- Hnamesa.
    exact (assoc_name _ _ _ E). }
  assert (Hglob1 : glob_years_csv (to_csv combined1 combined_csv fsa) =
                   (glob_years_csv fs ++ [combined_csv])%list).
  { unfold glob_years_csv, to_csv.
    rewrite (update_names_absent _ _ _ Hnonea), Hnamesa, filter_app. reflexivity. }
  assert (Hrows1 : forall file,
             In file (glob_years_csv fs) ->
             List.length (rows_of (to_csv combined1 combined_csv fsa) file) =
             List.length (rows_of fs file)).
  { intros file Hin. rewrite <- Hlena. unfold rows_of at 1. unfold to_csv.
    assert (file <> combined_csv) as Hne.
    { intros ->. exact (assoc_absent _ _ Hnone (glob_names fs _ Hin)). }
    rewrite (assoc_update_other _ _ _ _ Hne). reflexivity. }
  assert (Hcomb1 : rows_of (to_csv combined1 combined_csv fsa) combined_csv = combined1).
  { unfold rows_of, to_csv. rewrite assoc_update_same. reflexivity. }
  (* the second run *)
  unfold clean in H2.
  apply bind_Ok in H2. destruct H2 as ([fsb combined2] & Hrunb & H2).
  injection H2 as <-.
  destruct (clean_loop_frame _ _ _ _ _ Hrunb) as (_ & _ & _ & Houtb).
  simpl in Houtb.
  unfold rows_of at 1. unfold to_csv at 1. rewrite assoc_update_same.
  rewrite Hcomb1, Houtb, Hglob1, map_app, list_sum_app. simpl map. simpl list_sum.
  rewrite Hcomb1, Houta, Nat.add_0_r.
  rewrite (map_ext_in _ _ _ Hrows1). lia.
Qed.

Lemma clean_twice_doubles_combined_witness :
  List.length (rows_of season_2023_cleaned_twice combined_csv) =
  (2 * List.length (rows_of season_2023_cleaned combined_csv))%nat.
Proof.
  exact (clean_twice_doubles_combined season_2023_disk season_2023_cleaned
           season_2023_cleaned_twice eq_refl eq_refl eq_refl).
Defined.

(** ** Batch cleanup: the teams file *)

Lemma drop_duplicates_from_spec (rows : list team_row) :
  forall (seen : list Z) (i : nat),
    let out := drop_duplicates_from seen i rows in
    NoDup (map (fun ir => team_id (snd ir)) out) /\
    (forall id, In id (map (fun ir => team_id (snd ir)) out) <->
                In id (map team_id rows) /\ ~ In id seen) /\
    (forall k r, In (k, r) out ->
                 (i <= k)%nat /\ nth_error rows (k - i) = Some r /\
                 forall j r', (j < k - i)%nat -> nth_error rows j = Some r' ->
                              team_id r' <> team_id r).
Proof.
  induction rows as [| r0 rest IH]; intros seen i; simpl.
  - split; [constructor |]. split; [intros id; simpl; tauto | intros k r []].
  - destruct (existsb (Z.eqb (team_id r0)) seen) eqn:Eseen.
    + apply existsb_exists in Eseen. destruct Eseen as (x & Hx & Ex).
      apply Z.eqb_eq in Ex. subst x.
      destruct (IH seen (S i)) as (Hnd & Hids & Hfirst).
      split; [exact Hnd |]. split.
      * intros id. rewrite Hids. simpl. split; [tauto |].
        intros [[<- | Hin] Hns]; [contradiction | tauto].
      * intros k r Hin. destruct (Hfirst k r Hin) as (Hk & Hnth & Hearlier).
        assert (Hr : In (team_id r) (map (fun ir => team_id (snd ir))
                                          (drop_duplicates_from seen (S i) rest))).
        { apply in_map_iff. exists (k, r). split; [reflexivity | exact Hin]. }
        apply Hids in Hr. destruct Hr as [_ Hr].
        replace (k - i)%nat with (S (k - S i)) by lia.
        split; [lia |]. split; [exact Hnth |].
        intros j r' Hj Hr'. destruct j as [| j]; simpl in Hr'.
        -- injection Hr' as <-. intros E. apply Hr. rewrite <- E. exact Hx.
        -- apply (Hearlier j r'); [lia | exact Hr'].
    + assert (Hns : ~ In (team_id r0) seen).
      { intros Hin. assert (existsb (Z.eqb (team_id r0)) seen = true) as E.
        { apply existsb_exists. exists (team_id r0). split; [exact Hin | apply Z.eqb_refl]. }
        congruence. }
      destruct (IH (team_id r0 :: seen) (S i)) as (Hnd & Hids & Hfirst).
      split; [| split].
      * simpl. constructor; [| exact Hnd].
        intros Hin. apply Hids in Hin. apply (proj2 Hin). left. reflexivity.
      * intros id. simpl. rewrite Hids. simpl.
        destruct (Z.eq_dec (team_id r0) id) as [<- | Hne]; [tauto |]. tauto.
      * intros k r [Heq | Hin].
        -- injection Heq as <- <-. rewrite Nat.sub_diag.
           split; [lia |]. split; [reflexivity |]. intros j r' Hj. lia.
        -- destruct (Hfirst k r Hin) as (Hk & Hnth & Hearlier).
           assert (Hr : In (team_id r) (map (fun ir => team_id (snd ir))
                                             (drop_duplicates_from (team_id r0 :: seen)
                                                                   (S i) rest))).
           { apply in_map_iff. exists (k, r). split; [reflexivity | exact Hin]. }
           apply Hids in Hr. destruct Hr as [_ Hr].
           replace (k - i)%nat with (S (k - S i)) by lia.
           split; [lia |]. split; [exact Hnth |].
           intros j r' Hj Hr'. destruct j as [| j]; simpl in Hr'.
           ++ injection Hr' as <-. intros E. apply Hr. left. exact E.
           ++ apply (Hearlier j r'); [lia | exact Hr'].
Qed.

(** The teams file after the pass: no [team_id] twice, every [team_id]
    of the file still there, and for each the first row that had it,
    beside the position that row had. *)
Theorem distinct_teams_keeps_first (rows : list team_row) :
  NoDup (map (fun ir => team_id (snd ir)) (distinct_teams rows)) /\
  (forall id, In id (map (fun ir => team_id (snd ir)) (distinct_teams rows)) <->
              In id (map team_id rows)) /\
  (forall k r, In (k, r) (distinct_teams rows) ->
               nth_error rows k = Some r /\
               forall j r', (j < k)%nat -> nth_error rows j = Some r' ->
                            team_id r' <> team_id r).
Proof.
  unfold distinct_teams.
  destruct (drop_duplicates_from_spec rows [] 0) as (Hnd & Hids & Hfirst).
  split; [exact Hnd |]. split.
  - intros id. rewrite Hids. simpl. tauto.
  - intros k r Hin. destruct (Hfirst k r Hin) as (_ & Hnth & Hearlier).
    rewrite Nat.sub_0_r in Hnth, Hearlier. split; assumption.
Qed.
